(** * drip-table: a shallow embedding of the table core

    The development follows the TypeScript sources of the repository:

    - [packages/drip-table-generator/src/hooks.ts]        ([Hooks])
    - [packages/drip-table/src/drip-table/index.tsx]      ([DripTable])
    - the later revision of the same component that adds sub-table
      override rules and cell editing                     ([Subtable], [Edit])
    - the earlier revision keyed on ["ui:type"]           ([Legacy])

    JavaScript values are embedded as a tree type; objects keep their own
    properties in insertion order, arrays are lists.  Code that mutates
    shared objects is embedded over an explicit store ([Edit]). *)

From Stdlib Require Import ZArith String Ascii Bool DecimalString.
From stdpp Require Import base option list strings gmap.

#[local] Set Warnings "-register-all".
Local Open Scope string_scope.
Local Open Scope Z_scope.

(** ** JavaScript strings *)

Module Str.

(** Strings are sequences of code units in the range 0..255.  In that range
    the characters removed by [String.prototype.trim] (WhiteSpace and
    LineTerminator) are TAB, LF, VT, FF, CR, SP and NBSP. *)
Definition is_space (a : ascii) : bool :=
  let n := N_of_ascii a in
  ((9 <=? n) && (n <=? 13) || (n =? 32) || (n =? 160))%N.

(** The character class [[0-9]]. *)
Definition is_digit (a : ascii) : bool :=
  let n := N_of_ascii a in ((48 <=? n) && (n <=? 57))%N.

Fixpoint all_chars (p : ascii -> bool) (s : string) : bool :=
  match s with
  | EmptyString => true
  | String a s' => p a && all_chars p s'
  end.

Definition is_empty (s : string) : bool :=
  match s with EmptyString => true | String _ _ => false end.

(** [/^[0-9]+$/uig.test(s)] on a fresh regular expression: one or more
    digits and nothing else. *)
Definition test_digits (s : string) : bool :=
  negb (is_empty s) && all_chars is_digit s.

Fixpoint trimStart (s : string) : string :=
  match s with
  | EmptyString => EmptyString
  | String a s' => if is_space a then trimStart s' else s
  end.

Fixpoint trimEnd (s : string) : string :=
  match s with
  | EmptyString => EmptyString
  | String a s' =>
      let t := trimEnd s' in
      if is_space a && is_empty t then EmptyString else String a t
  end.

(** [s.trim()] *)
Definition trim (s : string) : string := trimEnd (trimStart s).

(** [s.startsWith(p)] *)
Fixpoint startsWith (p s : string) : bool :=
  match p, s with
  | EmptyString, _ => true
  | String a p', String b s' => Ascii.eqb a b && startsWith p' s'
  | String _ _, EmptyString => false
  end.

(** [s.includes(p)] *)
Fixpoint includes (p s : string) : bool :=
  startsWith p s ||
  match s with
  | EmptyString => false
  | String _ s' => includes p s'
  end.

(** [s.split('::')]: the pieces of [s] between occurrences of the two
    character separator, scanning from the left. *)
Fixpoint split_colons_aux (cur : string) (s : string) : list string :=
  match s with
  | EmptyString => [cur]
  | String a s' =>
      match s' with
      | String b s'' =>
          if Ascii.eqb a ":" && Ascii.eqb b ":"
          then cur :: split_colons_aux EmptyString s''
          else split_colons_aux (cur +:+ String a EmptyString) s'
      | EmptyString => [cur +:+ String a EmptyString]
      end
  end.

Definition split_colons (s : string) : list string :=
  split_colons_aux EmptyString s.

(** The double quote character, and a string between double quotes. *)
Definition dquote : string := String (ascii_of_nat 34) EmptyString.

Definition quoted (s : string) : string := dquote +:+ s +:+ dquote.

(** Decimal rendering of an integer, as [String(n)] prints it. *)
Definition of_Z (n : Z) : string := NilZero.string_of_int (Z.to_int n).

Fixpoint join (sep : string) (l : list string) : string :=
  match l with
  | [] => EmptyString
  | [x] => x
  | x :: r => x +:+ sep +:+ join sep r
  end.

End Str.

(** ** Objects as ordered property lists *)

Module Obj.

Section Properties.

Context {V : Type}.

Implicit Types (o : list (string * V)) (k : string) (v : V).

(** The own property [k] of [o], if there is one. *)
Fixpoint own o k : option V :=
  match o with
  | [] => None
  | (k', v) :: r => if String.eqb k' k then Some v else own r k
  end.

(** [k in o] *)
Definition has o k : bool :=
  match own o k with
  | Some _ => true
  | None => false
  end.

(** [o[k] = v]: an existing property keeps its place, a new one goes last. *)
Fixpoint set o k v : list (string * V) :=
  match o with
  | [] => [(k, v)]
  | (k', v') :: r =>
      if String.eqb k' k then (k, v) :: r else (k', v') :: set r k v
  end.

Definition keep_keys (p : string -> bool) (l : list (string * V)) :
  list (string * V) :=
  List.filter (fun kv => p (fst kv)) l.

(** [Object.entries(o)]: every own key once, in insertion order. *)
Fixpoint entries o : list (string * V) :=
  match o with
  | [] => []
  | (k, v) :: r =>
      (k, v) :: keep_keys (fun x => negb (String.eqb x k)) (entries r)
  end.

(** [Object.fromEntries(l)] *)
Definition fromEntries (l : list (string * V)) : list (string * V) :=
  fold_left (fun acc kv => set acc (fst kv) (snd kv)) l [].

(** [Object.fromEntries(Object.entries(o).filter(([k]) => p(k)))] *)
Definition filter_keys (p : string -> bool) o : list (string * V) :=
  fromEntries (keep_keys p (entries o)).

(** [Object.assign(target, source)] and the spread [{ ...target, ...source }]. *)
Definition assign (target source : list (string * V)) : list (string * V) :=
  fold_left (fun acc kv => set acc (fst kv) (snd kv)) (entries source) target.

(** [Object.assign({}, ...sources)] *)
Definition assign_all (sources : list (list (string * V))) : list (string * V) :=
  fold_left assign sources [].

(** The value written last among [sources] for [k], if any source has it. *)
Fixpoint last_own (sources : list (list (string * V))) k : option V :=
  match sources with
  | [] => None
  | s :: r =>
      match last_own r k with
      | Some v => Some v
      | None => own s k
      end
  end.

End Properties.

End Obj.

(** ** JavaScript values and objects *)

Module JS.
Export Obj.

(** Numbers are the integers; an object is the list of its own enumerable
    properties in insertion order. *)
Inductive value : Type :=
| VUndef
| VNull
| VBool (b : bool)
| VNum (n : Z)
| VStr (s : string)
| VArr (elems : list value)
| VObj (fields : list (string * value)).

Definition object : Type := list (string * value).

(** ToBoolean *)
Definition truthy (v : value) : bool :=
  match v with
  | VUndef | VNull => false
  | VBool b => b
  | VNum n => negb (n =? 0)
  | VStr s => negb (Str.is_empty s)
  | VArr _ | VObj _ => true
  end.

(** [v === undefined || v === null] *)
Definition nullish (v : value) : bool :=
  match v with
  | VUndef | VNull => true
  | _ => false
  end.

(** [typeof v === 'undefined'] *)
Definition is_undefined (v : value) : bool :=
  match v with
  | VUndef => true
  | _ => false
  end.

(** [a ?? b] *)
Definition coalesce (a b : value) : value := if nullish a then b else a.

(** [a || b] *)
Definition or_else (a b : value) : value := if truthy a then a else b.

(** [a === b] on primitives.  Arrays and objects are compared by identity
    in JavaScript; the tree embedding carries no identity, and two
    separately built trees are never identical. *)
Definition strict_eq (a b : value) : bool :=
  match a, b with
  | VUndef, VUndef => true
  | VNull, VNull => true
  | VBool x, VBool y => Bool.eqb x y
  | VNum x, VNum y => x =? y
  | VStr x, VStr y => String.eqb x y
  | _, _ => false
  end.

(** [String(v)], also used by template literals. *)
Fixpoint to_string (v : value) : string :=
  match v with
  | VUndef => "undefined"
  | VNull => "null"
  | VBool true => "true"
  | VBool false => "false"
  | VNum n => Str.of_Z n
  | VStr s => s
  | VArr l =>
      Str.join ","
        (map (fun x => if nullish x then EmptyString else to_string x) l)
  | VObj _ => "[object Object]"
  end.

(** [Array.isArray(v)] *)
Definition isArray (v : value) : bool :=
  match v with
  | VArr _ => true
  | _ => false
  end.

(** [v.length] of an array *)
Definition array_length (v : value) : Z :=
  match v with
  | VArr l => Z.of_nat (length l)
  | _ => 0
  end.

(** *** Property reads *)

(** [o[k]] *)
Definition get (o : object) (k : string) : value := default VUndef (own o k).

(** [v.k] for a key [k] that is neither an index nor [length]; reading a
    property of [undefined] or [null] throws. *)
Definition member (v : value) (k : string) : option value :=
  match v with
  | VUndef | VNull => None
  | VObj o => Some (get o k)
  | _ => Some VUndef
  end.

(** [{ ...v }] *)
Definition spread (v : value) : object :=
  match v with
  | VObj o => assign [] o
  | VArr l => imap (fun i x => (Str.of_Z (Z.of_nat i), x)) l
  | VStr s =>
      imap (fun i c => (Str.of_Z (Z.of_nat i), VStr (String c EmptyString)))
           (list_ascii_of_string s)
  | _ => []
  end.

(** *** [JSON.stringify] *)

Definition hex_digit (n : N) : ascii :=
  match String.get (N.to_nat n) "0123456789abcdef" with
  | Some a => a
  | None => "0"%char
  end.

(** One character inside a JSON string literal. *)
Definition json_char (a : ascii) : string :=
  let n := N_of_ascii a in
  if (n =? 34)%N then "\" +:+ Str.dquote
  else if (n =? 92)%N then "\\"
  else if (n =? 8)%N then "\b"
  else if (n =? 9)%N then "\t"
  else if (n =? 10)%N then "\n"
  else if (n =? 12)%N then "\f"
  else if (n =? 13)%N then "\r"
  else if (n <? 32)%N then
    "\u00" +:+ String (hex_digit (n / 16)) (String (hex_digit (n mod 16)) EmptyString)
  else String a EmptyString.

Fixpoint json_chars (s : string) : string :=
  match s with
  | EmptyString => EmptyString
  | String a s' => json_char a +:+ json_chars s'
  end.

Definition json_quote (s : string) : string :=
  Str.dquote +:+ json_chars s +:+ Str.dquote.

(** [JSON.stringify(v)]: [undefined] has no JSON text; inside an array it
    is written [null], inside an object its property is left out.  The
    members of an object are its entries, each key once. *)
Fixpoint JSON_stringify (v : value) : option string :=
  match v with
  | VUndef => None
  | VNull => Some "null"
  | VBool true => Some "true"
  | VBool false => Some "false"
  | VNum n => Some (Str.of_Z n)
  | VStr s => Some (json_quote s)
  | VArr l =>
      Some ("[" +:+ Str.join "," (map (fun x => default "null" (JSON_stringify x)) l)
            +:+ "]")
  | VObj o =>
      Some ("{" +:+
            Str.join ","
              ((fix members (seen : list string) (o : list (string * value)) :
                  list string :=
                  match o with
                  | [] => []
                  | (k, x) :: r =>
                      if existsb (String.eqb k) seen then members seen r
                      else
                        match JSON_stringify x with
                        | Some t =>
                            (json_quote k +:+ ":" +:+ t) :: members (k :: seen) r
                        | None => members (k :: seen) r
                        end
                  end) [] o)
            +:+ "}")
  end.

End JS.

Import JS.

(** ** The state hook ([hooks.ts]) *)

Module Hooks.

(** [SetStateAction<Partial<T>>]: a partial state, or a function from the
    current state to a partial state. *)
Inductive action : Type :=
| Patch (data : object)
| Updater (f : object -> object).

(** [typeof action === 'function' ? action(state) : action] *)
Definition data_of (state : object) (a : action) : object :=
  match a with
  | Updater f => f state
  | Patch data => data
  end.

(** The reducer handed to [useReducer]: [{ ...state, ...data }]. *)
Definition reducer (state : object) (a : action) : object :=
  assign (assign [] state) (data_of state a).

(** [useState(initState)] gives the current state and a dispatcher; a
    sequence of dispatched actions folds the reducer over the state. *)
Definition useState (initState : object) (dispatched : list action) : object :=
  fold_left reducer dispatched initState.

End Hooks.

(** ** Effects: table state, console and host callbacks *)

Module Eff.

(** What a statement sequence leaves behind: a value, or a thrown
    [TypeError]. *)
Inductive completion (A : Type) : Type :=
| Normal (a : A)
| TypeError.
Arguments Normal {A} a.
Arguments TypeError {A}.

(** A computation over a store of type [S]; a throw keeps the store as it
    was when the exception was raised. *)
Definition M (S A : Type) : Type := S -> completion A * S.

Definition ret {S A : Type} (a : A) : M S A := fun s => (Normal a, s).

Definition bind {S A B : Type} (m : M S A) (k : A -> M S B) : M S B :=
  fun s =>
    match m s with
    | (Normal a, s') => k a s'
    | (TypeError, s') => (TypeError, s')
    end.

Definition throw {S A : Type} : M S A := fun s => (TypeError, s).

Definition gets {S A : Type} (f : S -> A) : M S A := fun s => (Normal (f s), s).

Definition modify {S : Type} (f : S -> S) : M S unit := fun s => (Normal tt, f s).

(** [if (c) { m }] *)
Definition when {S : Type} (c : bool) (m : M S unit) : M S unit :=
  if c then m else ret tt.

(** [xs.map(f)] for an effectful [f], left to right. *)
Fixpoint mapM {S A B : Type} (f : A -> M S B) (xs : list A) : M S (list B) :=
  match xs with
  | [] => ret []
  | x :: r =>
      bind (f x) (fun y => bind (mapM f r) (fun ys => ret (y :: ys)))
  end.

End Eff.

Declare Scope eff_scope.
Delimit Scope eff_scope with eff.
Notation "'let!' x := m 'in' k" := (Eff.bind m (fun x => k))
  (at level 10, x name, m at level 100, k at level 200) : eff_scope.
Notation "m ;; k" := (Eff.bind m (fun _ => k))
  (at level 100, k at level 200, right associativity) : eff_scope.

(** ** Parts of the table properties that depend on values only *)

Module Parts.
Import Eff.

(** [v?.k] for a key [k] that is neither an index nor [length]. *)
Definition opt_member (v : value) (k : string) : value :=
  match v with
  | VObj o => get o k
  | _ => VUndef
  end.

(** [v?.length] *)
Definition opt_length (v : value) : value :=
  match v with
  | VArr l => VNum (Z.of_nat (length l))
  | VStr s => VNum (Z.of_nat (String.length s))
  | VObj o => get o "length"
  | _ => VUndef
  end.

(** *** Pagination *)

(** [tableProps.pagination]: [None] stands for [false].  The fields of the
    object literal are evaluated in the order written; reading
    [tableState.pagination.pageSize] throws when the state has no pagination,
    and [tableState.pagination.current] is read only when the host's
    [currentPage] is falsy. *)
Definition tableProps_pagination (schema_pagination total currentPage : value)
  (dataSource : list object) (tableState : object) : completion (option object) :=
  if strict_eq schema_pagination (VBool false) then Normal None
  else
    match member (get tableState "pagination") "pageSize" with
    | None => TypeError
    | Some pageSize =>
        match (if truthy currentPage then Some currentPage
               else member (get tableState "pagination") "current") with
        | None => TypeError
        | Some current =>
            Normal (Some
              [("size",
                if is_undefined (opt_member schema_pagination "size")
                then VStr "small"
                else opt_member schema_pagination "size");
               ("pageSize", pageSize);
               ("total",
                if is_undefined total
                then VNum (Z.of_nat (length dataSource))
                else total);
               ("current", current);
               ("position",
                VArr [or_else (opt_member schema_pagination "position")
                              (VStr "bottomRight")]);
               ("showLessItems", opt_member schema_pagination "showLessItems");
               ("showQuickJumper", opt_member schema_pagination "showQuickJumper");
               ("showSizeChanger", opt_member schema_pagination "showSizeChanger");
               ("hideOnSinglePage", opt_member schema_pagination "hideOnSinglePage")])
        end
    end.

(** *** Row selection *)

(** [tableProps.rowSelection]: the selected keys shown, or [None] for
    [undefined], which leaves the table without row selection. *)
Definition tableProps_rowSelection (schema_rowSelection schema_virtual
  selectedRowKeys : value) (tableState : object) : option value :=
  if truthy schema_rowSelection && negb (truthy schema_virtual)
  then Some (or_else selectedRowKeys (get tableState "selectedRowKeys"))
  else None.

(** *** Header and footer slots *)

Record Slot : Type := {
  slot_style : value;
  slot_schemas : value;
}.

Definition default_header_schemas : value :=
  VArr [VObj [("type", VStr "display-column-selector");
              ("selectorButtonType", VStr "primary")];
        VObj [("type", VStr "spacer"); ("span", VStr "flex-auto")];
        VObj [("type", VStr "search")];
        VObj [("type", VStr "insert-button"); ("showIcon", VBool true)]].

Definition default_footer_schemas : value :=
  VArr [VObj [("type", VStr "display-column-selector"); ("span", VNum 8)];
        VObj [("type", VStr "search"); ("span", VNum 8)];
        VObj [("type", VStr "insert-button"); ("span", VNum 4)]].

(** The body shared by the [header] and [footer] memos, [slot] being
    [props.schema.header] or [props.schema.footer]. *)
Definition slot_of (defaults : value) (slot : value) : option Slot :=
  if strict_eq slot (VBool true)
  then Some {| slot_style := VUndef; slot_schemas := defaults |}
  else if negb (truthy slot)
          || negb (truthy (opt_length (opt_member slot "elements")))
  then None
  else Some {| slot_style := opt_member slot "style";
               slot_schemas := opt_member slot "elements" |}.

Definition header (schema_header : value) : option Slot :=
  slot_of default_header_schemas schema_header.

Definition footer (schema_footer : value) : option Slot :=
  slot_of default_footer_schemas schema_footer.

(** *** The scroll settings of the virtual table *)

(** [{ ...props.schema.scroll, x: props.schema.scroll?.x || '100vw',
       y: props.schema.scroll?.y || 300 }] *)
Definition virtual_scroll (schema_scroll : value) : object :=
  set (set (spread schema_scroll)
           "x" (or_else (opt_member schema_scroll "x") (VStr "100vw")))
      "y" (or_else (opt_member schema_scroll "y") (VNum 300)).

End Parts.

(** ** The table component ([drip-table/index.tsx]) *)

Module DripTable.
Import Eff.
Local Open Scope eff_scope.

(** [DripTableTableInformation]: what every host callback receives last. *)
Record TableInfo : Type := {
  info_id : value;
  info_dataSource : list object;
}.

(** What the world sees of a render or of an event handler. *)
Inductive Event : Type :=
| ConsoleWarn (message : string)
| SetTableState (patch : object)
| FilterChange (filters : value) (info : TableInfo)
| PageChange (current pageSize : value) (info : TableInfo)
| Change (pagination : object) (filters : value) (info : TableInfo).

(** The table state held by the state hook, and the log of effects. *)
Record World : Type := {
  tableState : object;
  trace : list Event;
}.

Definition emit (e : Event) : M World unit :=
  modify (fun w => {| tableState := tableState w; trace := trace w ++ [e] |}).

(** [console.warn(message)] *)
Definition console_warn (message : string) : M World unit :=
  emit (ConsoleWarn message).

(** Modelled from the spec: [setTableState] is the dispatcher of the table's
    state hook, which lives in [@/hooks] and is not among the sources; as the
    specification's state store has it, the patch is shallow-merged onto the
    state, which is what the [useState] of [hooks.ts] does. *)
Definition setTableState (patch : object) : M World unit :=
  modify (fun w =>
    {| tableState := Hooks.reducer (tableState w) (Hooks.Patch patch);
       trace := trace w ++ [SetTableState patch] |}).

(** [callback?.(...)]: a supplied callback is called, a missing one skipped. *)
Definition call_optional (supplied : bool) (e : Event) : M World unit :=
  when supplied (emit e).

(** [schema.subtable] *)
Record SubtableSchema : Type := {
  sub_id : value;
  sub_dataSourceKey : string;
  sub_columns : list object;
}.

(** [DripTableSchema]: the fields the component reads below. *)
Record Schema : Type := {
  id : value;
  columns : list object;
  rowKey : option string;
  ellipsis : bool;
  subtable : option SubtableSchema;
  pagination : value;
  rowSelection : value;
  virtual : value;
  scroll : value;
  header : value;
  footer : value;
}.

Definition with_columns (s : Schema) (cols : list object) : Schema :=
  {| id := id s; columns := cols; rowKey := rowKey s;
     ellipsis := ellipsis s; subtable := subtable s;
     pagination := pagination s; rowSelection := rowSelection s;
     virtual := virtual s; scroll := scroll s;
     header := header s; footer := footer s |}.

(** [props.ajv]: [false] switches validation off. *)
Inductive AjvSetting (AjvOptions : Type) : Type :=
| AjvOff
| AjvOn (options : option AjvOptions).
Arguments AjvOff {AjvOptions}.
Arguments AjvOn {AjvOptions} options.

(** What a cell renderer is given. *)
Record CellProps : Type := {
  cell_value : value;
  cell_data : object;
  cell_schema : object;
  cell_ext : value;
  cell_index : nat;
  cell_info : TableInfo;
}.

(** What a column's [render] returns for one cell. *)
Inductive Element (Component : Type) : Type :=
| ErrorDiv (text : string)
| Cell (component : Component) (props : CellProps).
Arguments ErrorDiv {Component} text.
Arguments Cell {Component} component props.

(** A column title, decorated with the description pop-over when the column
    has a description. *)
Inductive Title : Type :=
| PlainTitle (title : value)
| DescribedTitle (title description : value).

(** The column descriptor handed to the driver's table. *)
Record TableColumn (Component : Type) : Type := {
  col_width : string;
  col_align : value;
  col_title : Title;
  col_dataIndex : value;
  col_fixed : value;
  col_filters : value;
  col_defaultFilteredValue : value;
  col_ellipsis : bool;
  col_render : value -> object -> nat -> Element Component;
}.
Arguments col_width {Component} _.
Arguments col_render {Component} _.
Arguments col_title {Component} _.

Section Core.

(** Renderers are opaque to the table. *)
Context {Component ReactNode AjvOptions : Type}.

(** [DripTableProps] *)
Record Props : Type := {
  schema : Schema;
  dataSource : list object;
  components : gmap string (gmap string Component);
  ajv : AjvSetting AjvOptions;
  ext : value;
  rowExpandable : option (object -> TableInfo -> bool);
  expandedRowRender : option (object -> nat -> TableInfo -> ReactNode);
  onFilterChange : bool;
  onPageChange : bool;
  onChange : bool;
  driver : value;
  total : value;
  currentPage : value;
  selectedRowKeys : value;
}.

Definition with_schema (p : Props) (s : Schema) : Props :=
  {| schema := s; dataSource := dataSource p; components := components p;
     ajv := ajv p; ext := ext p; rowExpandable := rowExpandable p;
     expandedRowRender := expandedRowRender p;
     onFilterChange := onFilterChange p; onPageChange := onPageChange p;
     onChange := onChange p;
     driver := driver p; total := total p; currentPage := currentPage p;
     selectedRowKeys := selectedRowKeys p |}.

(** The table of built-in renderers ([./components]) and the validators
    ([@/utils/ajv]); a validator answers with an error message, empty when
    there is nothing to report. *)
Variable DripTableBuiltInComponents : gmap string Component.
Variable validateDripTableProps : Props -> option AjvOptions -> string.
Variable validateDripTableColumnSchema :
  object -> Component -> option AjvOptions -> string.

(** *** Deprecated column fields *)

Definition deprecation_message (key : value) (old new : string) : string :=
  "[DripTable] Column " +:+ to_string key +:+ " " +:+ Str.quoted old
  +:+ " is deprecated, please use " +:+ Str.quoted new +:+ " instead.".

Definition not_deprecated_key (k : string) : bool :=
  negb (String.eqb k "ui:type") && negb (String.eqb k "ui:props").

(** The body of [props.schema.columns.map((column) => ...)]. *)
Definition rewrite_column (column : object) : M World object :=
  if has column "ui:type" || has column "ui:props" then
    let key := get column "key" in
    when (has column "ui:type")
      (console_warn (deprecation_message key "ui:type" "component")) ;;
    when (has column "ui:props")
      (console_warn (deprecation_message key "ui:props" "options")) ;;
    ret (set (set (assign [] (filter_keys not_deprecated_key column))
                "options"
                (or_else (or_else (get column "ui:props") (get column "options"))
                         VUndef))
           "component"
           (or_else (get column "ui:type") (get column "component")))
  else ret column.

(** [c => c['ui:type'] || c['ui:props']] *)
Definition uses_deprecated (c : object) : bool :=
  truthy (or_else (get c "ui:type") (get c "ui:props")).

(** The first statement of [DripTable]. *)
Definition rewrite_props (props : Props) : M World Props :=
  if existsb uses_deprecated (columns (schema props)) then
    let! cols := mapM rewrite_column (columns (schema props)) in
    ret (with_schema props (with_columns (schema props) cols))
  else ret props.

(** *** Cell renderers *)

Section Render.

Variable props : Props.

(** [tableInfo] *)
Definition tableInfo : TableInfo :=
  {| info_id := id (schema props); info_dataSource := dataSource props |}.

(** [if (props.ajv !== false) { errorMessage = validate...; if (errorMessage) ... }]:
    the message to show, if any. *)
Definition column_schema_error (schema : object) (c : Component) : option string :=
  match ajv props with
  | AjvOff => None
  | AjvOn options =>
      let errorMessage := validateDripTableColumnSchema schema c options in
      if Str.is_empty errorMessage then None else Some errorMessage
  end.

(** The render function built for a resolved renderer [c]. *)
Definition resolved_render (schema : object) (c : Component) :
  value -> object -> nat -> Element Component :=
  match column_schema_error schema c with
  | Some errorMessage =>
      fun _ _ _ => ErrorDiv ("Schema validate failed: " +:+ errorMessage)
  | None =>
      fun value record index =>
        Cell c {| cell_value := coalesce value (get schema "defaultValue");
                  cell_data := record;
                  cell_schema := schema;
                  cell_ext := ext props;
                  cell_index := index;
                  cell_info := tableInfo |}
  end.

(** The last [return] of [renderGenerator]. *)
Definition unknown_component (schema : object) :
  value -> object -> nat -> Element Component :=
  fun _ _ _ =>
    ErrorDiv ("Unknown column component: " +:+ to_string (get schema "component")).

(** [props.components?.[libName]?.[componentName]] *)
Definition extra_component (libName componentName : string) : option Component :=
  components props !! libName ≫= fun lib => lib !! componentName.

(** [renderGenerator(schema)].  A property read on a component identifier
    that is not a string has no [split] to call and throws. *)
Definition renderGenerator (schema : object) :
  completion (value -> object -> nat -> Element Component) :=
  if has schema "component" then
    match DripTableBuiltInComponents !! to_string (get schema "component") with
    | Some BuiltInComponent => Normal (resolved_render schema BuiltInComponent)
    | None =>
        match get schema "component" with
        | VStr component =>
            match Str.split_colons component with
            | libName :: componentName :: _ =>
                if negb (Str.is_empty libName) && negb (Str.is_empty componentName)
                then
                  match extra_component libName componentName with
                  | Some ExtraComponent =>
                      Normal (resolved_render schema ExtraComponent)
                  | None => Normal (unknown_component schema)
                  end
                else Normal (unknown_component schema)
            | _ => Normal (unknown_component schema)
            end
        | _ => TypeError
        end
    end
  else Normal (unknown_component schema).

(** *** Column descriptors *)

(** [let width = String(schemaColumn.width).trim();
     if (/^[0-9]+$/uig.test(width)) width += 'px';] *)
Definition normalize_width (w : value) : string :=
  let width := Str.trim (to_string w) in
  if Str.test_digits width then width +:+ "px" else width.

(** [columnGenerator(schemaColumn)] *)
Definition columnGenerator (schemaColumn : object) :
  completion (TableColumn Component) :=
  match renderGenerator schemaColumn with
  | Normal render =>
      Normal
        {| col_width := normalize_width (get schemaColumn "width");
           col_align := get schemaColumn "align";
           col_title :=
             if truthy (get schemaColumn "description")
             then DescribedTitle (get schemaColumn "title")
                                 (get schemaColumn "description")
             else PlainTitle (get schemaColumn "title");
           col_dataIndex := get schemaColumn "dataIndex";
           col_fixed := get schemaColumn "fixed";
           col_filters := get schemaColumn "filters";
           col_defaultFilteredValue := get schemaColumn "defaultFilteredValue";
           col_ellipsis := ellipsis (schema props);
           col_render := render |}
  | TypeError => TypeError
  end.

End Render.

(** *** The properties handed to the driver's table *)

Section TableProps.

Variable props : Props.

(** [column => !column.hidable || tableState.displayColumnKeys.includes(column.key)];
    [displayColumnKeys] is an array of keys, anything else has no such
    [includes] and raises. *)
Definition column_visible (column : object) : M World bool :=
  if negb (truthy (get column "hidable")) then ret true
  else
    let! st := gets tableState in
    match get st "displayColumnKeys" with
    | VArr keys => ret (existsb (strict_eq (get column "key")) keys)
    | _ => throw
    end.

Fixpoint filterM {A : Type} (f : A -> M World bool) (xs : list A) :
  M World (list A) :=
  match xs with
  | [] => ret []
  | x :: r =>
      let! keep := f x in
      let! rest := filterM f r in
      ret (if keep then x :: rest else rest)
  end.

Definition lift {A : Type} (c : completion A) : M World A :=
  match c with
  | Normal a => ret a
  | TypeError => throw
  end.

(** [tableProps.columns] *)
Definition tableProps_columns : M World (list (TableColumn Component)) :=
  let! visible := filterM column_visible (columns (schema props)) in
  mapM (fun c => lift (columnGenerator props c)) visible.

(** [props.schema.rowKey ?? 'key'] *)
Definition tableProps_rowKey : string := default "key" (rowKey (schema props)).

(** The body of [props.dataSource.map((item, index) => ...)]. *)
Definition keyed_record (index : nat) (item : object) : object :=
  let rowKey := tableProps_rowKey in
  set (assign [] item) rowKey
      (if is_undefined (get item rowKey)
       then VNum (Z.of_nat index)
       else get item rowKey).

(** [tableProps.dataSource] *)
Definition tableProps_dataSource : list object :=
  imap keyed_record (dataSource props).

(** [tableProps.expandable.rowExpandable], with what [expandedRowRender]
    puts into an expanded row: the nested data set of the sub-table, if
    any, and the host's own rendering, if any. *)
Record Expandable : Type := {
  exp_expandedRowRender : object -> nat -> option value * option ReactNode;
  exp_rowExpandable : object -> bool;
}.

Definition expandable_rowExpandable (record : object) : bool :=
  if match rowExpandable props with
     | Some f => f record (tableInfo props)
     | None => false
     end
  then true
  else
    match subtable (schema props) with
    | Some sub =>
        let ds := get record (sub_dataSourceKey sub) in
        isArray ds && (0 <? array_length ds)
    | None => false
    end.

Definition expandable_expandedRowRender (record : object) (index : nat) :
  option value * option ReactNode :=
  (match subtable (schema props) with
   | Some sub =>
       if isArray (get record (sub_dataSourceKey sub))
       then Some (get record (sub_dataSourceKey sub))
       else None
   | None => None
   end,
   match expandedRowRender props with
   | Some render => Some (render record index (tableInfo props))
   | None => None
   end).

(** [tableProps.expandable]: present only with a sub-table or a custom
    expanded-row renderer. *)
Definition tableProps_expandable : option Expandable :=
  if bool_decide (is_Some (subtable (schema props)))
     || bool_decide (is_Some (expandedRowRender props))
  then Some {| exp_expandedRowRender := expandable_expandedRowRender;
               exp_rowExpandable := expandable_rowExpandable |}
  else None.

(** Whether the driver's table shows a row as expandable: it asks
    [expandable.rowExpandable] when it was given an [expandable]. *)
Definition row_marked_expandable (record : object) : bool :=
  match tableProps_expandable with
  | Some e => exp_rowExpandable e record
  | None => false
  end.

(** [a ?? v.k]: the property is read only when [a] is nullish. *)
Definition coalesce_member (a v : value) (k : string) : completion value :=
  if nullish a then
    match member v k with
    | Some x => Normal x
    | None => TypeError
    end
  else Normal a.

(** [tableProps.onChange(pagination, filters)] *)
Definition tableProps_onChange (pagination : object) (filters : value) :
  M World unit :=
  let! tableState := gets tableState in
  let! current :=
    lift (coalesce_member (get pagination "current")
                          (get tableState "pagination") "current") in
  let! pageSize :=
    lift (coalesce_member (get pagination "pageSize")
                          (get tableState "pagination") "pageSize") in
  setTableState
    [("pagination",
      VObj (set (set (spread (get tableState "pagination")) "current" current)
                "pageSize" pageSize));
     ("filters", filters)] ;;
  call_optional (onFilterChange props) (FilterChange filters (tableInfo props)) ;;
  call_optional (onPageChange props)
                (PageChange current pageSize (tableInfo props)) ;;
  call_optional (onChange props) (Change pagination filters (tableInfo props)).

(** [tableProps]; the pagination is [None] for [false], the row selection
    [None] for [undefined]. *)
Record TableProps : Type := {
  tp_rowKey : string;
  tp_columns : list (TableColumn Component);
  tp_dataSource : list object;
  tp_pagination : option object;
  tp_expandable : option Expandable;
  tp_rowSelection : option value;
  tp_onChange : object -> value -> M World unit;
}.

End TableProps.

(** *** The component *)

(** [props.driver.group?.name]: reading a property of a missing driver
    throws. *)
Definition driver_part (driver : value) (group name : string) : completion value :=
  match member driver group with
  | None => TypeError
  | Some g => Normal (Parts.opt_member g name)
  end.

(** The table in the returned tree: the driver's [Table] with the table
    properties, or, for a virtual schema, the virtual table with its scroll
    settings. *)
Inductive TableElement : Type :=
| DriverTable (Table : value) (tableProps : TableProps)
| VirtualTable (tableProps : TableProps) (scroll : object).

(** What [DripTable] returns: the error surface of a failed validation, or
    the header slot, the table and the footer slot. *)
Inductive Rendered : Type :=
| PropsError (text : string)
| TableView (header : option Parts.Slot) (table : TableElement)
            (footer : option Parts.Slot).

(** [if (props.ajv !== false) { errorMessage = validateDripTableProps(props, props.ajv); ... }] *)
Definition props_error (props : Props) : option string :=
  match ajv props with
  | AjvOff => None
  | AjvOn options =>
      let errorMessage := validateDripTableProps props options in
      if Str.is_empty errorMessage then None else Some errorMessage
  end.

(** [DripTable] after its first statement: validation, the reads of the
    driver, the table properties in the order they are written, the header
    and footer slots, the returned tree.  The state is the one the hooks
    hand over. *)
Definition DripTable_body (props : Props) : M World Rendered :=
  match props_error props with
  | Some errorMessage =>
      ret (PropsError ("Props validate failed: " +:+ errorMessage))
  | None =>
      let! Table := lift (driver_part (driver props) "components" "Table") in
      let! Popover := lift (driver_part (driver props) "components" "Popover") in
      let! QuestionCircleOutlined :=
        lift (driver_part (driver props) "icons" "QuestionCircleOutlined") in
      let! cols := tableProps_columns props in
      let! state := gets tableState in
      let! pag :=
        lift (Parts.tableProps_pagination (pagination (schema props)) (total props)
                (currentPage props) (dataSource props) state) in
      let tableProps :=
        {| tp_rowKey := tableProps_rowKey props;
           tp_columns := cols;
           tp_dataSource := tableProps_dataSource props;
           tp_pagination := pag;
           tp_expandable := tableProps_expandable props;
           tp_rowSelection :=
             Parts.tableProps_rowSelection (rowSelection (schema props))
               (virtual (schema props)) (selectedRowKeys props) state;
           tp_onChange := tableProps_onChange props |} in
      ret (TableView
             (Parts.header (header (schema props)))
             (if truthy (virtual (schema props))
              then VirtualTable tableProps (Parts.virtual_scroll (scroll (schema props)))
              else DriverTable Table tableProps)
             (Parts.footer (footer (schema props))))
  end.

(** One render of [DripTable(props)]: the body of the function.  The
    effects it registers with [React.useEffect] run later, when React
    commits, and are no part of the call. *)
Definition DripTable (props : Props) : M World Rendered :=
  let! props := rewrite_props props in
  DripTable_body props.

(** [n] renders of the same [props], one after the other. *)
Fixpoint renders (n : nat) (props : Props) : M World unit :=
  match n with
  | O => ret tt
  | S n' => DripTable props ;; renders n' props
  end.

End Core.

Arguments Props : clear implicits.
Arguments Expandable : clear implicits.
Arguments TableProps : clear implicits.
Arguments TableElement : clear implicits.
Arguments Rendered : clear implicits.

End DripTable.

(** ** Sub-table override rules (later revision of the component) *)

Module Subtable.

(** An element of [props.subtableProps]. *)
Record SubtableRule : Type := {
  sp_subtableID : value;
  sp_recordKeys : option (list value);
  sp_default : bool;
  sp_properties : object;
}.

(** [DEFAULT_SUBTABLE_PROPS]: resets what must not leak from the parent. *)
Definition DEFAULT_SUBTABLE_PROPS : object :=
  [("defaultExpandAllRows", VUndef); ("defaultExpandedRowKeys", VUndef)].

(** [sp => sp.subtableID === subtable.id] *)
Definition id_matched (subtable_id : value) (sp : SubtableRule) : bool :=
  strict_eq (sp_subtableID sp) subtable_id.

(** [sp => sp.recordKeys && sp.recordKeys.length === 1
          && sp.recordKeys[0] === record[tableProps.rowKey ?? 'key']] *)
Definition key_matched (rowKey : string) (record : object) (sp : SubtableRule) : bool :=
  match sp_recordKeys sp with
  | Some [k] => strict_eq k (get record rowKey)
  | _ => false
  end.

(** The rules spread into the array literal, in the order written. *)
Definition matching_rules (rules : list SubtableRule) (subtable_id : value)
  (rowKey : string) (record : object) : list SubtableRule :=
  List.filter sp_default rules
  ++ List.filter (id_matched subtable_id) rules
  ++ List.filter (key_matched rowKey record) rules.

(** [const subtableProps = Object.assign({}, DEFAULT_SUBTABLE_PROPS,
      props.subtableProps ? Object.assign({}, ...[...].map(sp => sp.properties)) : void 0)] *)
Definition subtableProps (rules : option (list SubtableRule)) (subtable_id : value)
  (rowKey : string) (record : object) : object :=
  assign_all
    (DEFAULT_SUBTABLE_PROPS ::
     match rules with
     | Some rs =>
         [assign_all (map sp_properties (matching_rules rs subtable_id rowKey record))]
     | None => []
     end).

(** The rules handed down to the nested table: a rule tied to record keys
    loses its first key when that key is this row's, and is dropped
    otherwise or when no key is left. *)
Definition child_rule (rowKey : string) (record : object) (sp : SubtableRule) :
  SubtableRule :=
  match sp_recordKeys sp with
  | Some keys =>
      let recordKeys :=
        if negb (Str.is_empty rowKey)
           && strict_eq (nth 0 keys VUndef) (get record rowKey)
        then keys else [] in
      {| sp_subtableID := sp_subtableID sp;
         sp_recordKeys := Some (tail recordKeys);
         sp_default := sp_default sp;
         sp_properties := sp_properties sp |}
  | None => sp
  end.

Definition child_rules (rules : list SubtableRule) (rowKey : string)
  (record : object) : list SubtableRule :=
  List.filter
    (fun sp => match sp_recordKeys sp with Some [] => false | _ => true end)
    (map (child_rule rowKey record) rules).

(** The precedence as the specification words it: the field of the last
    key-matched rule that has it, else of the last id-matched rule that has
    it, else of the last default rule that has it. *)
Definition effective_field (rules : list SubtableRule) (subtable_id : value)
  (rowKey : string) (record : object) (field : string) : option value :=
  match last_own (map sp_properties (List.filter (key_matched rowKey record) rules)) field with
  | Some v => Some v
  | None =>
      match last_own (map sp_properties (List.filter (id_matched subtable_id) rules)) field with
      | Some v => Some v
      | None => last_own (map sp_properties (List.filter sp_default rules)) field
      end
  end.

End Subtable.

(** ** Cell editing over a store of shared objects (later revision) *)

Module Edit.
Import Eff.
Local Open Scope eff_scope.

Definition loc : Type := positive.

(** Values that can point at shared objects. *)
Inductive hval : Type :=
| HUndef
| HNull
| HBool (b : bool)
| HNum (n : Z)
| HStr (s : string)
| HRef (l : loc).

(** What lives at a location: an object or an array. *)
Inductive cell : Type :=
| CObject (fields : list (string * hval))
| CArray (elems : list hval).

(** A call of a host callback, with the reference it was given. *)
Inductive Call : Type :=
| DataSourceChange (dataSource : hval).

Record Store : Type := {
  heap : gmap loc cell;
  calls : list Call;
}.

Definition set_heap (f : gmap loc cell -> gmap loc cell) : M Store unit :=
  modify (fun s => {| heap := f (heap s); calls := calls s |}).

(** A new object or array takes a location nothing lives at yet. *)
Definition alloc (c : cell) : M Store loc :=
  fun s =>
    let l := fresh (dom (heap s)) in
    (Normal l, {| heap := <[l := c]> (heap s); calls := calls s |}).

(** [[...x]]: the elements of an array, the characters of a string; nothing
    else here is iterable. *)
Definition spread_array (x : hval) : M Store (list hval) :=
  match x with
  | HRef a =>
      let! h := gets heap in
      match h !! a with
      | Some (CArray elems) => ret elems
      | _ => throw
      end
  | HStr s => ret (map (fun c => HStr (String c EmptyString)) (list_ascii_of_string s))
  | _ => throw
  end.

(** [{ ...x }]: the own properties of an object, the indexed elements of an
    array or a string, nothing for any other value. *)
Definition spread_object (x : hval) : M Store (list (string * hval)) :=
  match x with
  | HRef r =>
      let! h := gets heap in
      match h !! r with
      | Some (CObject fields) => ret (assign [] fields)
      | Some (CArray elems) =>
          ret (imap (fun i v => (Str.of_Z (Z.of_nat i), v)) elems)
      | None => ret []
      end
  | HStr s =>
      ret (imap (fun i c => (Str.of_Z (Z.of_nat i), HStr (String c EmptyString)))
                (list_ascii_of_string s))
  | _ => ret []
  end.

(** [a[i] = v] on the elements of an array: past the end the array grows,
    and the slots in between read [undefined]. *)
Definition array_set (elems : list hval) (i : nat) (v : hval) : list hval :=
  if bool_decide (i < length elems)%nat then <[i := v]> elems
  else elems ++ replicate (i - length elems) HUndef ++ [v].

(** [a[i]] *)
Definition array_get (elems : list hval) (i : nat) : hval :=
  default HUndef (elems !! i).

(** [x[i] = v] for a reference [x]. *)
Definition store_index (x : loc) (i : nat) (v : hval) : M Store unit :=
  let! h := gets heap in
  match h !! x with
  | Some (CArray elems) => set_heap <[x := CArray (array_set elems i v)]>
  | Some (CObject fields) =>
      set_heap <[x := CObject (set fields (Str.of_Z (Z.of_nat i)) v)]>
  | None => throw
  end.

Section OnChange.

(** [setValue] of [./utils] writes a value into an object at a data index;
    it is a parameter here, acting on the store. *)
Variable setValue : hval -> value -> hval -> gmap loc cell -> gmap loc cell.

(** [props.dataSource], [schema.dataIndex] and whether the host gave
    [props.onDataSourceChange]. *)
Variable dataSource : hval.
Variable dataIndex : value.
Variable onDataSourceChange : bool.

(** [onChange(record, index, value)] of [renderGenerator]. *)
Definition onChange (record : hval) (index : nat) (value : hval) : M Store unit :=
  let! elems := spread_array dataSource in
  let! ds := alloc (CArray elems) in
  let! fields := spread_object record in
  let! rec := alloc (CObject fields) in
  set_heap (setValue (HRef rec) dataIndex value) ;;
  store_index ds index (HRef rec) ;;
  when onDataSourceChange
    (modify (fun s =>
       {| heap := heap s; calls := calls s ++ [DataSourceChange (HRef ds)] |})).

End OnChange.

(** Modelled from the spec: [setValue] of [./utils], which is not among the
    sources.  The specification's data index is "a field name or ordered
    path (sequence of keys)", and the change handler "re-projects the new
    value back into" the record it is given.  The handler discards what
    [setValue] returns, so the write is made in the object handed over: a
    field name is written as that own property; a path is followed from the
    object through the objects its leading keys hold, and its last key is
    written in the object reached.  Where a leading key holds no object
    nothing is written, and only objects are written into. *)
Definition key_name (v : value) : option string :=
  match v with
  | VStr k => Some k
  | VNum n => Some (Str.of_Z n)
  | _ => None
  end.

Fixpoint key_names (vs : list value) : option (list string) :=
  match vs with
  | [] => Some []
  | v :: r =>
      match key_name v, key_names r with
      | Some k, Some ks => Some (k :: ks)
      | _, _ => None
      end
  end.

(** The keys of a data index, outermost first. *)
Definition path_of (dataIndex : value) : option (list string) :=
  match dataIndex with
  | VArr vs => key_names vs
  | v => option_map (fun k => [k]) (key_name v)
  end.

Fixpoint write_path (keys : list string) (l : loc) (v : hval)
  (h : gmap loc cell) : gmap loc cell :=
  match keys with
  | [] => h
  | k :: rest =>
      match h !! l with
      | Some (CObject fields) =>
          match rest with
          | [] => <[l := CObject (set fields k v)]> h
          | _ :: _ =>
              match own fields k with
              | Some (HRef l') => write_path rest l' v h
              | _ => h
              end
          end
      | _ => h
      end
  end.

Definition setValue (target : hval) (dataIndex : value) (v : hval)
  (h : gmap loc cell) : gmap loc cell :=
  match target, path_of dataIndex with
  | HRef l, Some keys => write_path keys l v h
  | _, _ => h
  end.

(** *** The rows the cells are rendered from *)

(** [props.schema.rowKey ?? 'key'] *)
Definition row_key (schema_rowKey : option string) : string :=
  default "key" schema_rowKey.

Definition indexed (xs : list hval) : list (string * hval) :=
  imap (fun i v => (Str.of_Z (Z.of_nat i), v)) xs.

(** [x[k]]: reading a property of [undefined] or [null] throws; an array
    and a string have their length and their indexed elements. *)
Definition read_property (x : hval) (k : string) : M Store hval :=
  match x with
  | HUndef | HNull => throw
  | HRef r =>
      let! h := gets heap in
      match h !! r with
      | Some (CObject fields) => ret (default HUndef (own fields k))
      | Some (CArray elems) =>
          if String.eqb k "length" then ret (HNum (Z.of_nat (length elems)))
          else ret (default HUndef (own (indexed elems) k))
      | None => ret HUndef
      end
  | HStr s =>
      let chars := map (fun c => HStr (String c EmptyString)) (list_ascii_of_string s) in
      if String.eqb k "length" then ret (HNum (Z.of_nat (length chars)))
      else ret (default HUndef (own (indexed chars) k))
  | _ => ret HUndef
  end.

(** [typeof item[rowKey] === 'undefined' ? index : item[rowKey]] *)
Definition key_value (index : nat) (own_key : hval) : hval :=
  match own_key with
  | HUndef => HNum (Z.of_nat index)
  | x => x
  end.


(** [{ ...item, [rowKey]: typeof item[rowKey] === 'undefined' ? index : item[rowKey] }],
    a new object. *)
Definition keyed_row (rowKey : string) (index : nat) (item : hval) : M Store hval :=
  let! fields := spread_object item in
  let! own_key := read_property item rowKey in
  let! l := alloc (CObject (set fields rowKey (key_value index own_key))) in
  ret (HRef l).

Fixpoint keyed_rows (rowKey : string) (index : nat) (items : list hval)
  : M Store (list hval) :=
  match items with
  | [] => ret []
  | item :: rest =>
      let! row := keyed_row rowKey index item in
      let! rows := keyed_rows rowKey (S index) rest in
      ret (row :: rows)
  end.

(** [tableProps.dataSource]: [props.dataSource.map(...)], a new array of
    keyed copies; only an array has [map]. *)
Definition tableProps_dataSource (schema_rowKey : option string) (dataSource : hval)
  : M Store hval :=
  match dataSource with
  | HRef a =>
      let! h := gets heap in
      match h !! a with
      | Some (CArray elems) =>
          let! rows := keyed_rows (row_key schema_rowKey) 0 elems in
          let! l := alloc (CArray rows) in
          ret (HRef l)
      | _ => throw
      end
  | _ => throw
  end.

(** The record the driver's table hands to a column's render function for
    the row [index] of the data set it was given. *)
Definition row_at (rendered : hval) (index : nat) : M Store hval :=
  match rendered with
  | HRef l =>
      let! h := gets heap in
      match h !! l with
      | Some (CArray rows) => ret (array_get rows index)
      | _ => ret HUndef
      end
  | _ => ret HUndef
  end.

(** A cell edit: the table is rendered from [props.dataSource], the cell of
    row [index] is rendered with the record of that row, and the component
    reports the value [v] through its [onChange]. *)
Definition edit (schema_rowKey : option string) (dataSource : hval)
  (dataIndex : value) (onDataSourceChange : bool) (index : nat) (v : hval)
  : M Store unit :=
  let! rendered := tableProps_dataSource schema_rowKey dataSource in
  let! record := row_at rendered index in
  onChange setValue dataSource dataIndex onDataSourceChange record index v.


(** An array lives at the reference. *)
Definition is_array (h : gmap loc cell) (x : hval) : bool :=
  match x with
  | HRef a =>
      match h !! a with
      | Some (CArray _) => true
      | _ => false
      end
  | _ => false
  end.

End Edit.

(** ** The earlier revision of the component, keyed on ["ui:type"] *)

Module Legacy.
Import Eff.

Record CellProps : Type := {
  cell_value : value;
  cell_data : object;
  cell_schema : object;
  cell_ext : value;
  cell_index : nat;
}.

(** What a column's [render] returns: a renderer element, or a string (or
    nothing, when [JSON.stringify] has nothing to write). *)
Inductive Element (Component : Type) : Type :=
| Cell (component : Component) (props : CellProps)
| Text (text : option string).
Arguments Cell {Component} component props.
Arguments Text {Component} text.

Section Render.

Context {Component : Type}.
Variable DripTableBuiltInComponents : gmap string Component.
Variable components : gmap string (gmap string Component).
Variable ext : value.

(** [renderGenerator(schema)] *)
Definition renderGenerator (schema : object) :
  completion (value -> object -> nat -> Element Component) :=
  let uiType := if has schema "ui:type" then get schema "ui:type" else VUndef in
  match (if truthy uiType
         then DripTableBuiltInComponents !! to_string uiType
         else None) with
  | Some BuiltInComponent =>
      Normal (fun value record index =>
        Cell BuiltInComponent
          {| cell_value := value;
             cell_data := record;
             cell_schema :=
               set (assign (assign [] schema) (spread (get schema "ui:props")))
                   "ui:type" uiType;
             cell_ext := ext;
             cell_index := index |})
  | None =>
      match get schema "ui:type" with
      | VStr s =>
          let fallback := Normal (fun value _ _ => Text (JSON_stringify value)) in
          match Str.split_colons s with
          | libName :: componentName :: _ =>
              if negb (Str.is_empty libName) && negb (Str.is_empty componentName)
              then
                match components !! libName ≫= fun lib => lib !! componentName with
                | Some ExtraComponent =>
                    Normal (fun value record index =>
                      Cell ExtraComponent
                        {| cell_value := value;
                           cell_data := record;
                           cell_schema := schema;
                           cell_ext := ext;
                           cell_index := index |})
                | None => fallback
                end
              else fallback
          | _ => fallback
          end
      | _ => TypeError
      end
  end.

End Render.

End Legacy.

(** ** The specification's words, and sample inputs *)

Module Spec.
Import DripTable.

Section Words.

Context {Component ReactNode AjvOptions : Type}.

(** "The host's row-expandable predicate returns true for it". *)
Definition host_says_expandable (props : Props Component ReactNode AjvOptions)
  (record : object) : bool :=
  match rowExpandable props with
  | Some predicate => predicate record (tableInfo props)
  | None => false
  end.

(** "A subtable is configured and the record's value at the subtable's
    dataSourceKey is an array of length greater than zero". *)
Definition has_subtable_rows (props : Props Component ReactNode AjvOptions)
  (record : object) : bool :=
  match subtable (schema props) with
  | Some sub =>
      match get record (sub_dataSourceKey sub) with
      | VArr (_ :: _) => true
      | _ => false
      end
  | None => false
  end.

(** The table was given something to show in an expanded row. *)
Definition expansion_configured (props : Props Component ReactNode AjvOptions) : bool :=
  match subtable (schema props), expandedRowRender props with
  | None, None => false
  | _, _ => true
  end.

End Words.

Section Deprecated.

(** "The equivalent [component]/[options] form" of a column: the deprecated
    keys are gone, [component] is the deprecated type when there is one and
    the column's own component otherwise, and likewise for [options]. *)
Definition current_form (column : object) : object :=
  set (set (assign [] (filter_keys not_deprecated_key column))
           "options"
           (or_else (or_else (get column "ui:props") (get column "options")) VUndef))
      "component"
      (or_else (get column "ui:type") (get column "component")).

(** The column as the rest of the render sees it. *)
Definition rewritten (column : object) : object :=
  if has column "ui:type" || has column "ui:props"
  then current_form column
  else column.

(** The warnings one render logs for a column: one for each deprecated key
    the column carries. *)
Definition column_warnings (column : object) : list Event :=
  (if has column "ui:type"
   then [ConsoleWarn (deprecation_message (get column "key") "ui:type" "component")]
   else [])
  ++ (if has column "ui:props"
      then [ConsoleWarn (deprecation_message (get column "key") "ui:props" "options")]
      else []).

(** The number of deprecation warnings in a log that name the column [key]. *)
Definition warnings_about (key : value) (log : list Event) : nat :=
  length
    (List.filter
       (fun e =>
          match e with
          | ConsoleWarn m =>
              String.eqb m (deprecation_message key "ui:type" "component")
              || String.eqb m (deprecation_message key "ui:props" "options")
          | _ => false
          end)
       log).

(** A computation that leaves the world as it found it. *)
Definition silent {A : Type} (m : Eff.M World A) : Prop :=
  forall w, snd (m w) = w.

(** The world after some more events were logged. *)
Definition logged (w : World) (events : list Event) : World :=
  {| tableState := tableState w; trace := trace w ++ events |}.

End Deprecated.

End Spec.

Module Sample.
Import DripTable.

(** A driver: its components and icons, by name. *)
Definition a_driver : value :=
  VObj [("components", VObj [("Table", VStr "Table"); ("Popover", VStr "Popover")]);
        ("icons", VObj [("QuestionCircleOutlined", VStr "QuestionCircleOutlined")])].

Definition no_subtable_schema (cols : list object) : Schema :=
  {| id := VStr "T0"; columns := cols; rowKey := None; ellipsis := false;
     subtable := None;
     pagination := VUndef; rowSelection := VUndef; virtual := VUndef;
     scroll := VUndef; header := VUndef; footer := VUndef |}.

(** A table over unit renderers, without validation and callbacks. *)
Definition plain_props (s : Schema) (ds : list object) : Props unit unit unit :=
  {| schema := s; dataSource := ds; components := ∅; ajv := AjvOff;
     ext := VUndef; rowExpandable := None; expandedRowRender := None;
     onFilterChange := false; onPageChange := false; onChange := false;
     driver := a_driver; total := VUndef; currentPage := VUndef;
     selectedRowKeys := VUndef |}.

(** The data set [[{name:"a"},{name:"b"}]]. *)
Definition two_names : list object :=
  [[("name", VStr "a")]; [("name", VStr "b")]].

Definition two_names_props : Props unit unit unit :=
  plain_props (no_subtable_schema []) two_names.

(** A host that calls every row expandable but gives neither a sub-table nor
    an expanded-row renderer. *)
Definition only_predicate_props : Props unit unit unit :=
  {| schema := no_subtable_schema []; dataSource := two_names;
     components := ∅; ajv := AjvOff; ext := VUndef;
     rowExpandable := Some (fun _ _ => true); expandedRowRender := None;
     onFilterChange := false; onPageChange := false; onChange := false;
     driver := a_driver; total := VUndef; currentPage := VUndef;
     selectedRowKeys := VUndef |}.

(** A host that listens to every change, and a table on page 1 of size 10. *)
Definition listening_props : Props unit unit unit :=
  {| schema := no_subtable_schema []; dataSource := two_names;
     components := ∅; ajv := AjvOff; ext := VUndef;
     rowExpandable := None; expandedRowRender := None;
     onFilterChange := true; onPageChange := true; onChange := true;
     driver := a_driver; total := VUndef; currentPage := VUndef;
     selectedRowKeys := VUndef |}.

Definition first_page : World :=
  {| tableState :=
       [("pagination", VObj [("current", VNum 1); ("pageSize", VNum 10)]);
        ("filters", VObj [])];
     trace := [] |}.

(** The specification's deprecated column, with a key. *)
Definition deprecated_column : object :=
  [("key", VStr "name"); ("ui:type", VStr "text");
   ("ui:props", VObj [("fontSize", VStr "12")])].

Definition deprecated_props : Props unit unit unit :=
  plain_props (no_subtable_schema [deprecated_column]) two_names.

(** The same column with the deprecated type only. *)
Definition deprecated_type_props : Props unit unit unit :=
  plain_props
    (no_subtable_schema [[("key", VStr "name"); ("ui:type", VStr "text")]])
    two_names.

(** The specification's three override rules: a default one, one for the
    table ["T1"], one for the record key 5. *)
Definition colour_rules : list Subtable.SubtableRule :=
  [ {| Subtable.sp_subtableID := VUndef; Subtable.sp_recordKeys := None;
       Subtable.sp_default := true;
       Subtable.sp_properties := [("color", VStr "grey")] |};
    {| Subtable.sp_subtableID := VStr "T1"; Subtable.sp_recordKeys := None;
       Subtable.sp_default := false;
       Subtable.sp_properties := [("color", VStr "blue")] |};
    {| Subtable.sp_subtableID := VNull; Subtable.sp_recordKeys := Some [VNum 5];
       Subtable.sp_default := false;
       Subtable.sp_properties := [("color", VStr "red")] |} ].

(** A store holding the data set [[{name:"a"},{name:"b"}]]: the array at
    location 1, its two records at 2 and 3. *)
Definition two_names_store : Edit.Store :=
  {| Edit.heap :=
       <[1%positive := Edit.CArray [Edit.HRef 2%positive; Edit.HRef 3%positive]]>
         (<[2%positive := Edit.CObject [("name", Edit.HStr "a")]]>
            (<[3%positive := Edit.CObject [("name", Edit.HStr "b")]]> ∅));
     Edit.calls := [] |}.

(** A store holding the data set [[{name:"a", address:{city:"x"}}]]: the array
    at location 1, its record at 2, the record's address at 3. *)
Definition nested_store : Edit.Store :=
  {| Edit.heap :=
       <[1%positive := Edit.CArray [Edit.HRef 2%positive]]>
         (<[2%positive := Edit.CObject [("name", Edit.HStr "a");
                                        ("address", Edit.HRef 3%positive)]]>
            (<[3%positive := Edit.CObject [("city", Edit.HStr "x")]]> ∅));
     Edit.calls := [] |}.

(** The built-in table with the one renderer ["text"]. *)
Definition text_only : gmap string unit := {[ "text" := tt ]}.

Definition text_column : object :=
  [("key", VStr "name"); ("component", VStr "text"); ("defaultValue", VStr "-")].

End Sample.

(** ** The rest of [tableProps] and of the component ([drip-table/index.tsx]) *)

Module TableParts.

(** The parts that depend on values only: optional members, pagination,
    row selection, the header and footer slots, the virtual scroll. *)
Include Parts.
Import Eff.
Local Open Scope eff_scope.

(** *** Row selection *)

Inductive SelectionEvent : Type :=
| SelSetTableState (patch : object)
| SelectionChange (selectedKeys : list value) (selectedRows : list object)
                  (info : DripTable.TableInfo).

Record SelectionWorld : Type := {
  sel_tableState : object;
  sel_trace : list SelectionEvent;
}.

(** [tableProps.rowSelection.onChange(selectedKeys, selectedRows)]; the
    state dispatcher is the one of [DripTable.setTableState]. *)
Definition rowSelection_onChange (onSelectionChange : bool)
  (info : DripTable.TableInfo) (selectedKeys : list value)
  (selectedRows : list object) : M SelectionWorld unit :=
  modify (fun w =>
    {| sel_tableState :=
         Hooks.reducer (sel_tableState w)
           (Hooks.Patch [("selectedRowKeys", VArr selectedKeys)]);
       sel_trace :=
         (sel_trace w ++ [SelSetTableState [("selectedRowKeys", VArr selectedKeys)]])%list |}) ;;
  when onSelectionChange
    (modify (fun w =>
       {| sel_tableState := sel_tableState w;
          sel_trace :=
            (sel_trace w ++ [SelectionChange selectedKeys selectedRows info])%list |})).

(** *** State effects *)

(** The updater of the first effect:
    [state => ({ pagination: { ...state.pagination,
                               pageSize: initialPagination?.pageSize || 10 } })]
    with [initialPagination = props.schema?.pagination || void 0]. *)
Definition pageSize_updater (schema_pagination : value) : Hooks.action :=
  Hooks.Updater (fun state =>
    [("pagination",
      VObj (set (spread (get state "pagination"))
                "pageSize"
                (or_else (opt_member (or_else schema_pagination VUndef) "pageSize")
                         (VNum 10))))]).

(** The updater of the second effect:
    [state => ({ displayColumnKeys: props.displayColumnKeys
        || props.schema.columns.filter(c => c.hidable).map(c => c.key) })] *)
Definition displayColumnKeys_updater (displayColumnKeys : value)
  (columns : list object) : Hooks.action :=
  Hooks.Updater (fun _ =>
    [("displayColumnKeys",
      or_else displayColumnKeys
        (VArr (map (fun c => get c "key")
                   (List.filter (fun c => truthy (get c "hidable")) columns))))]).

(** The columns that pass the filter of [tableProps.columns] for a list of
    displayed keys. *)
Definition visible_columns (keys : list value) (columns : list object) :
  list object :=
  List.filter
    (fun column =>
       negb (truthy (get column "hidable"))
       || existsb (strict_eq (get column "key")) keys)
    columns.

End TableParts.

(** ** The sub-table's properties (later revision) *)

Module SubtableProps.

(** The first two attributes of the nested table,
    [{...props} {...subtableProps}]; the attributes written after them set
    [schema], [dataSource], [title], [footer], [subtableProps] and
    [__PARENT_INFO__]. *)
Definition nested_spread (props subtableProps : object) : object :=
  assign (assign [] props) subtableProps.

(** What becomes of one rule on the way down: it stays as it is without
    record keys; with record keys it goes down without its first key when
    that key is this row's and more keys follow, and not at all otherwise. *)
Definition handed_down (rowKey : string) (record : object)
  (sp : Subtable.SubtableRule) : option Subtable.SubtableRule :=
  match Subtable.sp_recordKeys sp with
  | None => Some sp
  | Some (k :: k' :: rest) =>
      if negb (Str.is_empty rowKey) && strict_eq k (get record rowKey)
      then Some {| Subtable.sp_subtableID := Subtable.sp_subtableID sp;
                   Subtable.sp_recordKeys := Some (k' :: rest);
                   Subtable.sp_default := Subtable.sp_default sp;
                   Subtable.sp_properties := Subtable.sp_properties sp |}
      else None
  | Some _ => None
  end.

End SubtableProps.

(** ** The text renderer ([components/text/index.tsx]) *)

Module DTCText.
Import Eff.

(** [get fontSize()]:
    [String(this.props.schema.options.fontSize || '').trim()], with ["px"]
    appended to a string of digits. *)
Definition fontSize (options_fontSize : value) : string :=
  let fontSize := Str.trim (to_string (or_else options_fontSize (VStr EmptyString))) in
  if Str.test_digits fontSize then fontSize +:+ "px" else fontSize.



Section Configured.

(** [v > 0] for a value [v] that is not a number: what the comparison
    makes of it after converting it to a number. *)
Variable converted_gt_zero : value -> bool.



End Configured.

End DTCText.

(** ** The generator's wrapper ([drip-table-generator/src/wrapper.tsx]) *)

Module Wrapper.

(** [schema.columns?.map((item, index) => ({ index, sort: index, ...item }))] *)
Definition initial_columns (columns : list object) : list object :=
  imap (fun index item =>
          assign [("index", VNum (Z.of_nat index)); ("sort", VNum (Z.of_nat index))]
                 item)
       columns.

(** [leftLayoutWidth]: ['280px'] unless [componentLayoutStyle.width] is a
    number or a string. *)
Definition leftLayoutWidth (width : value) : string :=
  match width with
  | VNum n => Str.of_Z n +:+ "px"
  | VStr s => s
  | _ => "280px"
  end.

End Wrapper.

(** ** More sample inputs *)

Module Sample2.
Import DripTable.

(** Three columns: a fixed one, a hidable one that is displayed and a
    hidable one that is not. *)
Definition three_columns : list object :=
  [[("key", VStr "id"); ("component", VStr "text"); ("width", VNum 80)];
   [("key", VStr "name"); ("component", VStr "text"); ("hidable", VBool true);
    ("width", VStr "50%")];
   [("key", VStr "note"); ("component", VStr "text"); ("hidable", VBool true)]].

Definition three_columns_props : Props unit unit unit :=
  Sample.plain_props (Sample.no_subtable_schema three_columns) Sample.two_names.

Definition name_displayed : World :=
  {| tableState :=
       [("pagination", VObj [("current", VNum 1); ("pageSize", VNum 10)]);
        ("displayColumnKeys", VArr [VStr "name"])];
     trace := [] |}.

(** The displayed keys set, the pagination not yet. *)
Definition no_pagination_yet : World :=
  {| tableState := [("displayColumnKeys", VArr [VStr "name"])]; trace := [] |}.

(** A table whose props validation is on. *)
Definition validated_props : Props unit unit unit :=
  {| schema := Sample.no_subtable_schema [Sample.deprecated_column];
     dataSource := Sample.two_names; components := ∅; ajv := AjvOn None;
     ext := VUndef; rowExpandable := None; expandedRowRender := None;
     onFilterChange := false; onPageChange := false; onChange := false;
     driver := Sample.a_driver; total := VUndef; currentPage := VUndef;
     selectedRowKeys := VUndef |}.

(** A table with a sub-table under the key ["children"]. *)
Definition subtable_props : Props unit unit unit :=
  {| schema :=
       {| id := VStr "T0"; columns := []; rowKey := None; ellipsis := false;
          subtable := Some {| sub_id := VStr "T1"; sub_dataSourceKey := "children";
                              sub_columns := [] |};
          pagination := VUndef; rowSelection := VUndef; virtual := VUndef;
          scroll := VUndef; header := VUndef; footer := VUndef |};
     dataSource := []; components := ∅; ajv := AjvOff;
     ext := VUndef; rowExpandable := None; expandedRowRender := None;
     onFilterChange := false; onPageChange := false; onChange := false;
     driver := Sample.a_driver; total := VUndef; currentPage := VUndef;
     selectedRowKeys := VUndef |}.

End Sample2.

(** * Properties *)

(** ** Objects *)

Module ObjFacts.
Import Obj.

Section Properties.

Context {V : Type}.

Implicit Types (o : list (string * V)) (k : string) (v : V).

Lemma own_set o k k' v :
  own (set o k v) k' = if String.eqb k k' then Some v else own o k'.
Proof.
  induction o as [|[k0 v0] r IH]; simpl.
  - destruct (String.eqb k k'); reflexivity.
  - destruct (String.eqb_spec k0 k) as [->|Hne]; simpl.
    + destruct (String.eqb k k'); reflexivity.
    + rewrite IH.
      destruct (String.eqb_spec k0 k') as [->|Hne'];
        destruct (String.eqb_spec k k') as [->|Hne'']; congruence.
Qed.

Lemma has_set o k k' v :
  has (set o k v) k' = String.eqb k k' || has o k'.
Proof. unfold has. rewrite own_set. destruct (String.eqb k k'); reflexivity. Qed.

Lemma own_keep_keys (p : string -> bool) o k :
  own (keep_keys p o) k = if p k then own o k else None.
Proof.
  unfold keep_keys.
  induction o as [|[k0 v0] r IH]; simpl.
  - destruct (p k); reflexivity.
  - destruct (p k0) eqn:Hp; simpl;
      destruct (String.eqb_spec k0 k) as [->|Hne];
      rewrite ?IH, ?Hp; reflexivity.
Qed.

Lemma own_entries o k : own (entries o) k = own o k.
Proof.
  induction o as [|[k0 v0] r IH]; simpl; [reflexivity|].
  destruct (String.eqb_spec k0 k) as [->|Hne]; [reflexivity|].
  rewrite own_keep_keys, IH.
  destruct (String.eqb_spec k k0); [congruence | reflexivity].
Qed.

Lemma own_None_not_key o k :
  own o k = None <-> k ∉ map fst o.
Proof.
  induction o as [|[k0 v0] r IH]; simpl.
  - split; [intros _; apply not_elem_of_nil | reflexivity].
  - rewrite not_elem_of_cons.
    destruct (String.eqb_spec k0 k) as [->|Hne]; split.
    + discriminate.
    + intros [? _]; congruence.
    + intros H; split; [congruence | apply IH, H].
    + intros [_ H]; apply IH, H.
Qed.

Lemma keep_keys_NoDup (p : string -> bool) (l : list (string * V)) :
  NoDup (map fst l) -> NoDup (map fst (keep_keys p l)).
Proof.
  unfold keep_keys.
  induction l as [|[k1 v1] l IHl]; simpl; intros Hl; [constructor|].
  inversion Hl as [|? ? Hnotin Hl']; subst.
  destruct (p k1); simpl; [|auto].
  constructor; [|auto].
  intros Hin. apply Hnotin.
  apply list_elem_of_fmap in Hin as [[k2 v2] [-> Hin]].
  apply list_elem_of_fmap. exists (k2, v2). split; [reflexivity|].
  apply list_elem_of_In. apply list_elem_of_In in Hin.
  apply List.filter_In in Hin. tauto.
Qed.

Lemma entries_NoDup o : NoDup (map fst (entries o)).
Proof.
  induction o as [|[k0 v0] r IH]; simpl; [constructor|].
  constructor.
  - apply own_None_not_key.
    rewrite own_keep_keys, String.eqb_refl. reflexivity.
  - apply keep_keys_NoDup, IH.
Qed.

Lemma own_fold_set (l : list (string * V)) (t : list (string * V)) k :
  NoDup (map fst l) ->
  own (fold_left (fun acc kv => set acc (fst kv) (snd kv)) l t) k
  = match own l k with Some v => Some v | None => own t k end.
Proof.
  revert t. induction l as [|[k0 v0] r IH]; intros t Hnd; simpl; [reflexivity|].
  inversion Hnd as [|? ? Hnotin Hnd']; subst.
  rewrite IH by assumption. rewrite own_set.
  destruct (String.eqb_spec k0 k) as [->|Hne]; [|reflexivity].
  apply own_None_not_key in Hnotin. rewrite Hnotin. reflexivity.
Qed.

Lemma own_filter_keys (p : string -> bool) o k :
  own (filter_keys p o) k = if p k then own o k else None.
Proof.
  unfold filter_keys, fromEntries.
  rewrite own_fold_set by apply keep_keys_NoDup, entries_NoDup.
  rewrite own_keep_keys, own_entries. simpl.
  destruct (p k); [destruct (own o k)|]; reflexivity.
Qed.

(** A spread reads a property from the source when the source has it, and
    from the target otherwise. *)
Lemma own_assign (t s : list (string * V)) k :
  own (assign t s) k = match own s k with Some v => Some v | None => own t k end.
Proof.
  unfold assign. rewrite own_fold_set by apply entries_NoDup.
  rewrite own_entries. reflexivity.
Qed.

Lemma has_assign (t s : list (string * V)) k :
  has (assign t s) k = has s k || has t k.
Proof.
  unfold has. rewrite own_assign. destruct (own s k); reflexivity.
Qed.

Lemma last_own_app (a b : list (list (string * V))) k :
  last_own (a ++ b) k
  = match last_own b k with Some v => Some v | None => last_own a k end.
Proof.
  induction a as [|s a IH]; simpl.
  - destruct (last_own b k); reflexivity.
  - rewrite IH. destruct (last_own b k); reflexivity.
Qed.

Lemma own_fold_assign (sources : list (list (string * V))) (t : list (string * V)) k :
  own (fold_left assign sources t) k
  = match last_own sources k with Some v => Some v | None => own t k end.
Proof.
  revert t. induction sources as [|s r IH]; intros t; simpl; [reflexivity|].
  rewrite IH, own_assign. destruct (last_own r k); reflexivity.
Qed.

Lemma own_assign_all (sources : list (list (string * V))) k :
  own (assign_all sources) k = last_own sources k.
Proof.
  unfold assign_all. rewrite own_fold_assign.
  destruct (last_own sources k); reflexivity.
Qed.

End Properties.

End ObjFacts.

Import ObjFacts.

Lemma get_set (o : object) (k k' : string) (v : value) :
  get (set o k v) k' = if String.eqb k k' then v else get o k'.
Proof. unfold get. rewrite own_set. destruct (String.eqb k k'); reflexivity. Qed.

Lemma get_assign (t s : object) (k : string) :
  get (assign t s) k = if has s k then get s k else get t k.
Proof.
  unfold get, has. rewrite own_assign. destruct (own s k); reflexivity.
Qed.


(** ** The library functions on small inputs *)

Example split_ex1 : Str.split_colons "lib::Comp" = ["lib"; "Comp"].
Proof. reflexivity. Qed.

Example split_ex2 : Str.split_colons "a::b::c" = ["a"; "b"; "c"].
Proof. reflexivity. Qed.

Example split_ex3 : Str.split_colons "nope" = ["nope"].
Proof. reflexivity. Qed.

Example split_ex4 : Str.split_colons ":::x" = [EmptyString; ":x"].
Proof. reflexivity. Qed.

Example trim_ex : Str.trim "  12 0 " = "12 0".
Proof. reflexivity. Qed.

Example ofZ_ex : Str.of_Z 120 = "120" /\ Str.of_Z (-5) = "-5" /\ Str.of_Z 0 = "0".
Proof. repeat split; reflexivity. Qed.

Example assign_ex :
  assign [("a", VNum 1); ("b", VNum 2)] [("b", VNum 3); ("c", VNum 4)]
  = [("a", VNum 1); ("b", VNum 3); ("c", VNum 4)].
Proof. reflexivity. Qed.

Example stringify_ex :
  JSON_stringify (VObj [("a", VArr [VNum 1; VUndef; VStr "x"]); ("b", VUndef)])
  = Some ("{" +:+ Str.quoted "a" +:+ ":[1,null," +:+ Str.quoted "x" +:+ "]}").
Proof. reflexivity. Qed.

Example fresh_computes :
  fresh (dom (<[2%positive := Edit.CArray []]> (<[1%positive := Edit.CArray []]> ∅)
              : gmap positive Edit.cell)) = 3%positive.
Proof. vm_compute. reflexivity. Qed.

(** ** Strings *)

Module StrFacts.
Import Str.

Lemma digit_not_space (a : ascii) : is_digit a = true -> is_space a = false.
Proof.
  unfold is_digit, is_space. cbv zeta.
  generalize (N_of_ascii a). intros n H.
  apply andb_true_iff in H as [H1 H2].
  apply N.leb_le in H1. apply N.leb_le in H2.
  repeat (apply orb_false_iff; split).
  - apply andb_false_iff. right. apply N.leb_gt. lia.
  - apply N.eqb_neq. lia.
  - apply N.eqb_neq. lia.
Qed.

Lemma trimStart_cases (s : string) :
  trimStart s = EmptyString
  \/ exists a t, trimStart s = String a t /\ is_space a = false.
Proof.
  induction s as [|a s IH]; simpl; [left; reflexivity|].
  destruct (is_space a) eqn:Ha; [exact IH|].
  right. exists a, s. split; [reflexivity | exact Ha].
Qed.

Lemma trimEnd_idem (s : string) : trimEnd (trimEnd s) = trimEnd s.
Proof.
  induction s as [|a s IH]; simpl; [reflexivity|].
  destruct (is_space a && is_empty (trimEnd s)) eqn:Hc; simpl; [reflexivity|].
  rewrite IH, Hc. reflexivity.
Qed.

Lemma trimStart_trim (s : string) : trimStart (trim s) = trim s.
Proof.
  unfold trim. destruct (trimStart_cases s) as [->|(a & t & -> & Ha)].
  - reflexivity.
  - simpl. rewrite Ha. simpl. rewrite Ha. reflexivity.
Qed.

(** Trimming a trimmed string changes nothing. *)
Lemma trim_idem (s : string) : trim (trim s) = trim s.
Proof.
  unfold trim at 1. rewrite trimStart_trim. unfold trim.
  apply trimEnd_idem.
Qed.

Lemma is_empty_app_px (s : string) : is_empty (s +:+ "px") = false.
Proof. destruct s; reflexivity. Qed.

Lemma trimEnd_app_px (s : string) : trimEnd (s +:+ "px") = s +:+ "px".
Proof.
  induction s as [|a s IH]; [reflexivity|].
  change (String a s +:+ "px") with (String a (s +:+ "px")).
  simpl. rewrite IH, is_empty_app_px, andb_false_r. reflexivity.
Qed.

Lemma digits_app_px (s : string) : all_chars is_digit (s +:+ "px") = false.
Proof.
  induction s as [|a s IH]; [reflexivity|].
  change (String a s +:+ "px") with (String a (s +:+ "px")).
  simpl. rewrite IH. apply andb_false_r.
Qed.

Lemma trim_digits_px (s : string) :
  test_digits s = true -> trim (s +:+ "px") = s +:+ "px".
Proof.
  unfold test_digits, trim. intros H.
  apply andb_true_iff in H as [Hne Hd].
  destruct s as [|a s]; [discriminate|].
  simpl in Hd. apply andb_true_iff in Hd as [Ha _].
  apply digit_not_space in Ha.
  change (String a s +:+ "px") with (String a (s +:+ "px")).
  simpl trimStart. rewrite Ha.
  apply (trimEnd_app_px (String a s)).
Qed.

(** The test of the regular expression, spelled out: the string is not
    empty and each of its characters is one of ['0'] .. ['9']. *)
Lemma test_digits_spec (s : string) :
  test_digits s = true
  <-> s <> EmptyString
      /\ Forall (fun a => (48 <= N_of_ascii a <= 57)%N) (list_ascii_of_string s).
Proof.
  unfold test_digits. rewrite andb_true_iff.
  assert (Hdig : forall a, is_digit a = true <-> (48 <= N_of_ascii a <= 57)%N).
  { intros a. unfold is_digit. cbv zeta.
    rewrite andb_true_iff, !N.leb_le. reflexivity. }
  assert (Hall : all_chars is_digit s = true
                 <-> Forall (fun a => (48 <= N_of_ascii a <= 57)%N)
                            (list_ascii_of_string s)).
  { induction s as [|a s IH]; simpl.
    - split; [constructor | reflexivity].
    - rewrite andb_true_iff, IH, Hdig. split.
      + intros [? ?]. constructor; assumption.
      + intros H. inversion H; subst. split; assumption. }
  rewrite Hall. destruct s; simpl; split; intros [H1 H2]; split;
    try assumption; try reflexivity; try discriminate; congruence.
Qed.

End StrFacts.

(** ** The state hook *)

Lemma reducer_own (state : object) (a : Hooks.action) (k : string) :
  own (Hooks.reducer state a) k
  = match own (Hooks.data_of state a) k with
    | Some v => Some v
    | None => own state k
    end.
Proof.
  unfold Hooks.reducer. rewrite !own_assign. simpl.
  destruct (own (Hooks.data_of state a) k); [reflexivity|].
  destruct (own state k); reflexivity.
Qed.

(** C4: for every state [state] and every top-level field [k], the state
    after [setState] with a patch [p] given directly holds [p]'s value of
    [k] when [p] names [k] and [state]'s otherwise; the state after
    [setState] with an updater [f] holds the same of the patch [f state]
    that the updater returns for the state it is applied to.  The patch's
    value is taken whole: nothing of the old value of a named field
    remains. *)
Theorem C4_setState_shallow_merge (state p : object) (f : object -> object)
    (k : string) :
  own (Hooks.reducer state (Hooks.Patch p)) k
  = match own p k with
    | Some v => Some v
    | None => own state k
    end
  /\ own (Hooks.reducer state (Hooks.Updater f)) k
     = match own (f state) k with
       | Some v => Some v
       | None => own state k
       end.
Proof. split; rewrite reducer_own; reflexivity. Qed.

(** The specification's example, and what a patch that leaves out a nested
    field does to it. *)
Example setState_pagination_example :
  let state := [("pagination", VObj [("current", VNum 1); ("pageSize", VNum 10)]);
                ("filters", VObj [])] in
  Hooks.reducer state
    (Hooks.Patch [("pagination", VObj [("current", VNum 2); ("pageSize", VNum 10)])])
  = [("pagination", VObj [("current", VNum 2); ("pageSize", VNum 10)]);
     ("filters", VObj [])]
  /\ Hooks.reducer state
       (Hooks.Updater (fun _ => [("pagination", VObj [("current", VNum 2)])]))
     = [("pagination", VObj [("current", VNum 2)]); ("filters", VObj [])].
Proof. split; reflexivity. Qed.

(** ** Column descriptors *)

(** C6: the width is the trimmed string form of the schema's width, with
    ["px"] appended exactly when that string is one or more digits and
    nothing else, and left as it is otherwise;
    ["120"] becomes ["120px"], ["120px"] stays, and normalizing a normalized
    width changes nothing. *)
Theorem C6_width_normalization (w : value) :
  DripTable.normalize_width w
  = (if Str.test_digits (Str.trim (to_string w))
     then Str.trim (to_string w) +:+ "px"
     else Str.trim (to_string w))
  /\ (Str.test_digits (Str.trim (to_string w)) = true
      <-> Str.trim (to_string w) <> EmptyString
          /\ Forall (fun a => (48 <= N_of_ascii a <= 57)%N)
                    (list_ascii_of_string (Str.trim (to_string w))))
  /\ DripTable.normalize_width (VStr "120") = "120px"
  /\ DripTable.normalize_width (VStr "120px") = "120px"
  /\ DripTable.normalize_width (VStr (DripTable.normalize_width w))
     = DripTable.normalize_width w.
Proof.
  split; [reflexivity|]. split; [apply StrFacts.test_digits_spec|].
  split; [reflexivity|]. split; [reflexivity|].
  unfold DripTable.normalize_width. cbn [to_string].
  set (t := Str.trim (to_string w)).
  destruct (Str.test_digits t) eqn:Hd.
  - rewrite (StrFacts.trim_digits_px t Hd).
    unfold Str.test_digits. rewrite StrFacts.digits_app_px, andb_false_r.
    reflexivity.
  - subst t. rewrite StrFacts.trim_idem, Hd. reflexivity.
Qed.

Example width_examples :
  DripTable.normalize_width (VNum 120) = "120px"
  /\ DripTable.normalize_width (VStr " 80 ") = "80px"
  /\ DripTable.normalize_width (VStr "50%") = "50%"
  /\ DripTable.normalize_width VUndef = "undefined".
Proof. repeat split; reflexivity. Qed.

(** ** The rendered data set *)

Section DataSource.

Context {Component ReactNode AjvOptions : Type}.
Variable props : DripTable.Props Component ReactNode AjvOptions.

Lemma keyed_record_own (index : nat) (item : object) (k : string) :
  own (DripTable.keyed_record props index item) k
  = if String.eqb (DripTable.tableProps_rowKey props) k
    then Some (if is_undefined (get item (DripTable.tableProps_rowKey props))
               then VNum (Z.of_nat index)
               else get item (DripTable.tableProps_rowKey props))
    else own item k.
Proof.
  unfold DripTable.keyed_record. rewrite own_set, own_assign. simpl.
  destruct (String.eqb _ k); [reflexivity|].
  destruct (own item k); reflexivity.
Qed.

(** C7: the row-key field is [schema.rowKey], or ["key"] when the schema
    names none; the record at position [i] of the rendered data set carries
    [i] under that field when the host's record has it undefined, and the
    host's own value otherwise; every other field is the host's. *)
Theorem C7_row_key_assignment (i : nat) (item : object) :
  DripTable.dataSource props !! i = Some item ->
  DripTable.tableProps_rowKey props
  = default "key" (DripTable.rowKey (DripTable.schema props))
  /\ length (DripTable.tableProps_dataSource props)
     = length (DripTable.dataSource props)
  /\ exists row,
       DripTable.tableProps_dataSource props !! i = Some row
       /\ get row (DripTable.tableProps_rowKey props)
          = (if is_undefined (get item (DripTable.tableProps_rowKey props))
             then VNum (Z.of_nat i)
             else get item (DripTable.tableProps_rowKey props))
       /\ forall k, k <> DripTable.tableProps_rowKey props -> own row k = own item k.
Proof.
  intros Hi. split; [reflexivity|]. split.
  - unfold DripTable.tableProps_dataSource. apply length_imap.
  - exists (DripTable.keyed_record props i item). split; [|split].
    + unfold DripTable.tableProps_dataSource.
      rewrite list_lookup_imap, Hi. reflexivity.
    + unfold get at 1. rewrite keyed_record_own, String.eqb_refl. reflexivity.
    + intros k Hk. rewrite keyed_record_own.
      destruct (String.eqb_spec (DripTable.tableProps_rowKey props) k);
        [congruence | reflexivity].
Qed.

(** ** Expandable rows *)

Lemma nonempty_array_spec (v : value) :
  isArray v && (0 <? array_length v)
  = match v with VArr (_ :: _) => true | _ => false end.
Proof. destruct v as [| | | | |[|x l]|]; reflexivity. Qed.

(** C5, as the code has it: a row is shown as expandable exactly when the
    table was given a sub-table or an expanded-row renderer, and either the
    host's predicate says so or the record holds a non-empty array under
    the sub-table's data-source key.  A value under that key that is not
    an array counts as no rows; the test is a total function of the
    record, so nothing is raised. *)
Theorem C5_row_expandable (record : object) :
  DripTable.row_marked_expandable props record
  = Spec.expansion_configured props
    && (Spec.host_says_expandable props record
        || Spec.has_subtable_rows props record).
Proof.
  unfold DripTable.row_marked_expandable, DripTable.tableProps_expandable,
    Spec.expansion_configured, Spec.host_says_expandable, Spec.has_subtable_rows.
  destruct (DripTable.subtable (DripTable.schema props)) as [sub|] eqn:Hsub;
    destruct (DripTable.expandedRowRender props) as [r|] eqn:Hr; simpl;
    try reflexivity;
    unfold DripTable.expandable_rowExpandable; rewrite Hsub;
    rewrite ?nonempty_array_spec;
    destruct (DripTable.rowExpandable props) as [f|]; simpl;
    try destruct (f record (DripTable.tableInfo props)); reflexivity.
Qed.

End DataSource.

(** The specification's data set [[{name:"a"},{name:"b"}]] gets the row keys
    0 and 1. *)
Lemma C7_witness :
  DripTable.dataSource Sample.two_names_props !! 1%nat = Some [("name", VStr "b")]
  /\ exists row,
       DripTable.tableProps_dataSource Sample.two_names_props !! 1%nat = Some row
       /\ get row "key" = VNum 1
       /\ forall k, k <> "key" -> own row k = own [("name", VStr "b")] k.
Proof.
  split; [reflexivity|].
  destruct (C7_row_key_assignment Sample.two_names_props 1 [("name", VStr "b")]
              eq_refl) as (_ & _ & row & H1 & H2 & H3).
  exists row. split; [exact H1|]. split; [exact H2 | exact H3].
Defined.

Example row_keys_example :
  map (fun row => get row "key")
      (DripTable.tableProps_dataSource Sample.two_names_props)
  = [VNum 0; VNum 1].
Proof. reflexivity. Qed.

(** Against C5 as worded: the host's predicate is true of the row, and the
    row is not expandable, because the table was given neither a sub-table
    nor an expanded-row renderer. *)
Lemma C5_counterexample :
  ~ (DripTable.row_marked_expandable Sample.only_predicate_props [("name", VStr "a")] = true
     <-> (Spec.host_says_expandable Sample.only_predicate_props [("name", VStr "a")] = true
          \/ Spec.has_subtable_rows Sample.only_predicate_props [("name", VStr "a")] = true)).
Proof.
  intros [_ H]. assert (Hf : false = true) by (apply H; left; reflexivity).
  discriminate Hf.
Qed.

(** ** Cell renderers *)

Lemma includes_suffix (p s : string) : Str.includes s (p +:+ s) = true.
Proof.
  assert (Hself : forall x, Str.startsWith x x = true).
  { induction x as [|a x IH]; simpl; [reflexivity|].
    rewrite Ascii.eqb_refl. exact IH. }
  induction p as [|a p IH].
  - simpl. destruct s; simpl; [reflexivity|].
    rewrite Ascii.eqb_refl, Hself. reflexivity.
  - change (String a p +:+ s) with (String a (p +:+ s)).
    simpl. rewrite IH. apply orb_true_r.
Qed.

Section Renderers.

Context {Component ReactNode AjvOptions : Type}.
Variable builtins : gmap string Component.
Variable validateColumn : object -> Component -> option AjvOptions -> string.
Variable props : DripTable.Props Component ReactNode AjvOptions.

Local Abbreviation renderGenerator :=
  (DripTable.renderGenerator builtins validateColumn props).

Lemma resolved_render_cell (schema : object) (c c' : Component)
  (value : value) (record : object) (index : nat) (p : DripTable.CellProps) :
  DripTable.resolved_render validateColumn props schema c value record index
  = DripTable.Cell c' p ->
  c' = c
  /\ DripTable.cell_value p = coalesce value (get schema "defaultValue")
  /\ DripTable.cell_data p = record
  /\ DripTable.cell_schema p = schema.
Proof.
  unfold DripTable.resolved_render.
  destruct (DripTable.column_schema_error validateColumn props schema c);
    [discriminate|].
  intros H. injection H as <- <-. repeat split.
Qed.

(** Every element a generated render function returns is a renderer fed by
    [resolved_render], or an error surface. *)
Lemma renderGenerator_cases (schema : object)
  (render : value -> object -> nat -> DripTable.Element Component) :
  renderGenerator schema = Eff.Normal render ->
  render = DripTable.unknown_component schema
  \/ exists c, render = DripTable.resolved_render validateColumn props schema c.
Proof.
  unfold DripTable.renderGenerator.
  repeat match goal with
         | |- context [match ?x with _ => _ end] => destruct x
         | |- context [if ?x then _ else _] => destruct x
         end;
    intros H; try discriminate; injection H as <-; eauto.
Qed.

(** C10: whatever column and cell, the value a renderer receives is the
    projected value, except that a projected [null] or [undefined] is
    replaced by the column's [defaultValue]. *)
Theorem C10_default_value (schema : object)
  (render : value -> object -> nat -> DripTable.Element Component)
  (value : value) (record : object) (index : nat)
  (c : Component) (p : DripTable.CellProps) :
  renderGenerator schema = Eff.Normal render ->
  render value record index = DripTable.Cell c p ->
  DripTable.cell_value p
  = match value with
    | VUndef | VNull => get schema "defaultValue"
    | _ => value
    end.
Proof.
  intros Hgen Hcell.
  destruct (renderGenerator_cases schema render Hgen) as [->|[c0 ->]].
  - discriminate Hcell.
  - apply resolved_render_cell in Hcell as (_ & -> & _).
    destruct value; reflexivity.
Qed.

(** The current renderer on an identifier that names neither a built-in
    renderer nor an entry of the host's registry: the render function is
    the placeholder, whose text ends with the identifier. *)
Lemma renderGenerator_unresolved (schema : object) (component : string) :
  get schema "component" = VStr component ->
  builtins !! component = None ->
  (forall libName componentName rest,
      Str.split_colons component = libName :: componentName :: rest ->
      DripTable.extra_component props libName componentName = None) ->
  renderGenerator schema = Eff.Normal (DripTable.unknown_component schema)
  /\ (forall value record index,
        DripTable.unknown_component schema value record index
        = (DripTable.ErrorDiv ("Unknown column component: " +:+ component)
           : DripTable.Element Component))
  /\ Str.includes component ("Unknown column component: " +:+ component) = true.
Proof.
  intros Hc Hb He. split; [|split; [|apply includes_suffix]].
  - unfold DripTable.renderGenerator. rewrite Hc. cbn [to_string]. rewrite Hb.
    destruct (has schema "component"); [|reflexivity].
    destruct (Str.split_colons component) as [|libName [|componentName rest]] eqn:Hs;
      try reflexivity.
    rewrite (He libName componentName rest eq_refl).
    destruct (negb _ && negb _); reflexivity.
  - intros. unfold DripTable.unknown_component. rewrite Hc. reflexivity.
Qed.

End Renderers.

(** A [null] cell of a column with default ["-"] reaches the renderer as
    ["-"]. *)
Lemma C10_witness :
  exists render,
    DripTable.renderGenerator Sample.text_only (fun _ _ _ => EmptyString)
      Sample.two_names_props Sample.text_column = Eff.Normal render
    /\ exists p,
         render VNull [("name", VNull)] 0%nat = DripTable.Cell tt p
         /\ DripTable.cell_value p = VStr "-".
Proof.
  eexists. split; [vm_compute; reflexivity|].
  eexists. split; [reflexivity|].
  exact (C10_default_value Sample.text_only (fun _ _ _ => EmptyString)
           Sample.two_names_props Sample.text_column _ VNull [("name", VNull)] 0%nat
           tt _ eq_refl eq_refl).
Defined.

(** ** Pagination and filter changes *)

Section OnChange.

Context {Component ReactNode AjvOptions : Type}.
Variable props : DripTable.Props Component ReactNode AjvOptions.

Import DripTable.

Lemma coalesce_member_object (a : value) (o : object) (k : string) :
  coalesce_member a (VObj o) k = Eff.Normal (coalesce a (get o k)).
Proof. unfold coalesce_member, coalesce. destruct (nullish a); reflexivity. Qed.

(** C8: on a change of page or filters the handler first dispatches the
    state patch, which holds the old pagination with the new current page
    and page size and the new filters, and then calls, of the callbacks the
    host supplied, the filter one, the page one and the combined one, in
    that order.  The state's [pagination] is an object, as its type says. *)
Theorem C8_onChange_order (pagination : object) (filters : value) (w : World)
  (pag : object) :
  get (tableState w) "pagination" = VObj pag ->
  let current := coalesce (get pagination "current") (get pag "current") in
  let pageSize := coalesce (get pagination "pageSize") (get pag "pageSize") in
  let patch :=
    [("pagination",
      VObj (set (set (assign [] pag) "current" current) "pageSize" pageSize));
     ("filters", filters)] in
  let state' := Hooks.reducer (tableState w) (Hooks.Patch patch) in
  tableProps_onChange props pagination filters w
  = (Eff.Normal tt,
     {| tableState := state';
        trace :=
          trace w
          ++ [SetTableState patch]
          ++ (if onFilterChange props
              then [FilterChange filters (tableInfo props)] else [])
          ++ (if onPageChange props
              then [PageChange current pageSize (tableInfo props)] else [])
          ++ (if onChange props
              then [Change pagination filters (tableInfo props)] else []) |})
  /\ get state' "filters" = filters
  /\ (exists pag',
        get state' "pagination" = VObj pag'
        /\ get pag' "current" = current
        /\ get pag' "pageSize" = pageSize
        /\ forall k, k <> "current" -> k <> "pageSize" -> own pag' k = own pag k)
  /\ forall k, k <> "pagination" -> k <> "filters" ->
               own state' k = own (tableState w) k.
Proof.
  intros Hpag current pageSize patch state'. split; [|split; [|split]].
  - unfold tableProps_onChange, Eff.bind, Eff.gets.
    rewrite Hpag, !coalesce_member_object.
    unfold lift, setTableState, call_optional, Eff.when, emit, Eff.modify, Eff.ret.
    cbn [spread tableState trace].
    destruct (onFilterChange props), (onPageChange props), (onChange props);
      cbn [tableState trace]; rewrite <- ?app_assoc; reflexivity.
  - unfold state', get. rewrite reducer_own. reflexivity.
  - eexists. split; [|split; [|split]].
    + unfold state', get. rewrite reducer_own. reflexivity.
    + rewrite get_set, get_set. reflexivity.
    + rewrite get_set. reflexivity.
    + intros k H1 H2. rewrite !own_set, own_assign.
      destruct (String.eqb_spec "pageSize" k); [congruence|].
      destruct (String.eqb_spec "current" k); [congruence|].
      simpl. destruct (own pag k); reflexivity.
  - intros k H1 H2. unfold state'. rewrite reducer_own.
    unfold patch. cbn [Hooks.data_of own].
    destruct (String.eqb_spec "pagination" k); [congruence|].
    destruct (String.eqb_spec "filters" k); [congruence|]. reflexivity.
Qed.

End OnChange.

(** Going to page 2: the state patch comes first, then the three callbacks. *)
Lemma C8_witness :
  get (DripTable.tableState Sample.first_page) "pagination"
  = VObj [("current", VNum 1); ("pageSize", VNum 10)]
  /\ DripTable.trace
       (snd (DripTable.tableProps_onChange Sample.listening_props
               [("current", VNum 2)] (VObj []) Sample.first_page))
     = [DripTable.SetTableState
          [("pagination", VObj [("current", VNum 2); ("pageSize", VNum 10)]);
           ("filters", VObj [])];
        DripTable.FilterChange (VObj []) (DripTable.tableInfo Sample.listening_props);
        DripTable.PageChange (VNum 2) (VNum 10)
          (DripTable.tableInfo Sample.listening_props);
        DripTable.Change [("current", VNum 2)] (VObj [])
          (DripTable.tableInfo Sample.listening_props)].
Proof.
  split; [reflexivity|].
  destruct (C8_onChange_order Sample.listening_props [("current", VNum 2)] (VObj [])
              Sample.first_page _ eq_refl) as [H _].
  rewrite H. reflexivity.
Defined.

(** ** Deprecated column fields *)

Section Rewrite.

Context {Component ReactNode AjvOptions : Type}.
Variable builtins : gmap string Component.
Variable validateProps :
  DripTable.Props Component ReactNode AjvOptions -> option AjvOptions -> string.
Variable validateColumn : object -> Component -> option AjvOptions -> string.

Import DripTable.

Lemma silent_ret {A : Type} (a : A) : Spec.silent (Eff.ret a).
Proof. intros w. reflexivity. Qed.

Lemma silent_throw {A : Type} : Spec.silent (@Eff.throw World A).
Proof. intros w. reflexivity. Qed.

Lemma silent_bind {A B : Type} (m : Eff.M World A) (k : A -> Eff.M World B) :
  Spec.silent m -> (forall a, Spec.silent (k a)) -> Spec.silent (Eff.bind m k).
Proof.
  intros Hm Hk w. unfold Eff.bind. specialize (Hm w).
  destruct (m w) as [[a|] w']; simpl in Hm; subst w'; [apply Hk | reflexivity].
Qed.

Lemma silent_gets {A : Type} (f : World -> A) : Spec.silent (Eff.gets f).
Proof. intros w. reflexivity. Qed.

Lemma silent_lift {A : Type} (c : Eff.completion A) : Spec.silent (lift c).
Proof. destruct c; [apply silent_ret | apply silent_throw]. Qed.

Lemma silent_column_visible (column : object) : Spec.silent (column_visible column).
Proof.
  unfold column_visible. destruct (negb _); [apply silent_ret|].
  apply silent_bind; [apply silent_gets|]. intros st.
  destruct (get st "displayColumnKeys"); try apply silent_throw. apply silent_ret.
Qed.

Lemma silent_filterM {A : Type} (f : A -> Eff.M World bool) (xs : list A) :
  (forall x, Spec.silent (f x)) -> Spec.silent (filterM f xs).
Proof.
  intros Hf. induction xs as [|x r IH]; simpl; [apply silent_ret|].
  apply silent_bind; [apply Hf|]. intros keep.
  apply silent_bind; [apply IH|]. intros rest. apply silent_ret.
Qed.

Lemma silent_mapM {A B : Type} (f : A -> Eff.M World B) (xs : list A) :
  (forall x, Spec.silent (f x)) -> Spec.silent (Eff.mapM f xs).
Proof.
  intros Hf. induction xs as [|x r IH]; simpl; [apply silent_ret|].
  apply silent_bind; [apply Hf|]. intros y.
  apply silent_bind; [apply IH|]. intros ys. apply silent_ret.
Qed.

(** Validation, the reads of the driver and the table properties log
    nothing and leave the state alone. *)
Lemma silent_DripTable_body (props : Props Component ReactNode AjvOptions) :
  Spec.silent (DripTable_body builtins validateProps validateColumn props).
Proof.
  unfold DripTable_body. destruct (props_error _ _); [apply silent_ret|].
  apply silent_bind; [apply silent_lift|]. intros Table.
  apply silent_bind; [apply silent_lift|]. intros Popover.
  apply silent_bind; [apply silent_lift|]. intros QuestionCircleOutlined.
  apply silent_bind.
  { unfold tableProps_columns. apply silent_bind.
    - apply silent_filterM, silent_column_visible.
    - intros visible. apply silent_mapM. intros c. apply silent_lift. }
  intros cols. apply silent_bind; [apply silent_gets|]. intros state.
  apply silent_bind; [apply silent_lift|]. intros pag. apply silent_ret.
Qed.

Lemma logged_nil (w : World) : Spec.logged w [] = w.
Proof. destruct w. unfold Spec.logged. simpl. rewrite app_nil_r. reflexivity. Qed.

Lemma logged_app (w : World) (a b : list Event) :
  Spec.logged (Spec.logged w a) b = Spec.logged w (a ++ b).
Proof. unfold Spec.logged. simpl. rewrite app_assoc. reflexivity. Qed.

Lemma rewrite_column_run (column : object) (w : World) :
  rewrite_column column w
  = (Eff.Normal (Spec.rewritten column), Spec.logged w (Spec.column_warnings column)).
Proof.
  unfold rewrite_column, Spec.rewritten, Spec.column_warnings.
  destruct (has column "ui:type" || has column "ui:props") eqn:Hdep.
  - unfold Eff.bind, Eff.when, console_warn, emit, Eff.modify, Eff.ret.
    destruct (has column "ui:type"), (has column "ui:props");
      cbn [tableState trace]; unfold Spec.logged; cbn [app];
      rewrite <- ?app_assoc, ?app_nil_r; try reflexivity.
    destruct w; reflexivity.
  - apply orb_false_iff in Hdep as [-> ->]. simpl. rewrite logged_nil. reflexivity.
Qed.

Lemma rewrite_columns_run (cols : list object) (w : World) :
  Eff.mapM rewrite_column cols w
  = (Eff.Normal (map Spec.rewritten cols),
     Spec.logged w (flat_map Spec.column_warnings cols)).
Proof.
  revert w. induction cols as [|c r IH]; intros w; simpl.
  - rewrite logged_nil. reflexivity.
  - unfold Eff.bind at 1. rewrite rewrite_column_run.
    unfold Eff.bind at 1. rewrite IH. unfold Eff.ret.
    rewrite logged_app. reflexivity.
Qed.

Lemma current_form_own (column : object) (k : string) :
  own (Spec.current_form column) k
  = if String.eqb "component" k
    then Some (or_else (get column "ui:type") (get column "component"))
    else if String.eqb "options" k
    then Some (or_else (or_else (get column "ui:props") (get column "options"))
                       VUndef)
    else if not_deprecated_key k then own column k else None.
Proof.
  unfold Spec.current_form.
  rewrite !own_set, own_assign, own_filter_keys. simpl own.
  destruct (String.eqb "component" k); [reflexivity|].
  destruct (String.eqb "options" k); [reflexivity|].
  destruct (not_deprecated_key k); [destruct (own column k)|]; reflexivity.
Qed.

(** C2, as the code has it: when some column has a truthy ["ui:type"] or
    ["ui:props"], the first thing a render does is replace every column
    that carries one of the two keys by its current form, logging one
    warning for each deprecated key the column carries; validation and
    column generation then run on the rewritten columns; and this happens
    on each render, whatever was Spec.logged before. *)
Theorem C2_deprecated_rewrite (props : Props Component ReactNode AjvOptions)
  (w : World) :
  existsb uses_deprecated (columns (schema props)) = true ->
  let cols := columns (schema props) in
  let props' := with_schema props (with_columns (schema props) (map Spec.rewritten cols)) in
  let w' := Spec.logged w (flat_map Spec.column_warnings cols) in
  rewrite_props props w = (Eff.Normal props', w')
  /\ DripTable builtins validateProps validateColumn props w
     = DripTable_body builtins validateProps validateColumn props' w'
  /\ snd (DripTable builtins validateProps validateColumn props w) = w'
  /\ (forall column, has column "ui:type" || has column "ui:props" = false ->
                     Spec.rewritten column = column)
  /\ (forall column k, has column "ui:type" || has column "ui:props" = true ->
         own (Spec.rewritten column) k
         = if String.eqb "component" k
           then Some (or_else (get column "ui:type") (get column "component"))
           else if String.eqb "options" k
           then Some (or_else (or_else (get column "ui:props") (get column "options"))
                              VUndef)
           else if String.eqb "ui:type" k || String.eqb "ui:props" k then None
           else own column k).
Proof.
  intros Hdep cols props' w'.
  assert (Hrw : rewrite_props props w = (Eff.Normal props', w')).
  { unfold rewrite_props. rewrite Hdep. unfold Eff.bind.
    rewrite rewrite_columns_run. reflexivity. }
  split; [exact Hrw|]. split; [|split; [|split]].
  - unfold DripTable, Eff.bind. rewrite Hrw. reflexivity.
  - unfold DripTable, Eff.bind. rewrite Hrw. apply silent_DripTable_body.
  - intros column H. unfold Spec.rewritten. rewrite H. reflexivity.
  - intros column k H. unfold Spec.rewritten. rewrite H, current_form_own.
    destruct (String.eqb "component" k); [reflexivity|].
    destruct (String.eqb "options" k); [reflexivity|].
    unfold not_deprecated_key. rewrite (String.eqb_sym k "ui:type"),
      (String.eqb_sym k "ui:props").
    destruct (String.eqb "ui:type" k), (String.eqb "ui:props" k); reflexivity.
Qed.

End Rewrite.

(** The specification's deprecated column in its current form. *)
Example rewritten_example :
  Spec.rewritten Sample.deprecated_column
  = [("key", VStr "name"); ("options", VObj [("fontSize", VStr "12")]);
     ("component", VStr "text")].
Proof. reflexivity. Qed.

(** One render of the specification's deprecated column. *)
Lemma C2_witness :
  existsb DripTable.uses_deprecated
    (DripTable.columns (DripTable.schema Sample.deprecated_props)) = true
  /\ DripTable.trace
       (snd (DripTable.DripTable Sample.text_only (fun _ _ => EmptyString)
               (fun _ _ _ => EmptyString) Sample.deprecated_props Sample.first_page))
     = Spec.column_warnings Sample.deprecated_column.
Proof.
  split; [reflexivity|].
  destruct (C2_deprecated_rewrite Sample.text_only (fun _ _ => EmptyString)
              (fun _ _ _ => EmptyString) Sample.deprecated_props Sample.first_page
              eq_refl) as (_ & _ & H & _).
  rewrite H. reflexivity.
Defined.

(** Against C2 as worded: one render of the specification's column logs two
    warnings that name its key, and two renders of a column with the
    deprecated type alone log two. *)
Lemma C2_counterexample :
  Spec.warnings_about (VStr "name")
    (DripTable.trace
       (snd (DripTable.DripTable Sample.text_only (fun _ _ => EmptyString)
               (fun _ _ _ => EmptyString) Sample.deprecated_props Sample.first_page)))
  <> 1%nat
  /\ Spec.warnings_about (VStr "name")
       (DripTable.trace
          (snd (DripTable.renders Sample.text_only (fun _ _ => EmptyString)
                  (fun _ _ _ => EmptyString) 2 Sample.deprecated_type_props
                  Sample.first_page)))
     <> 1%nat.
Proof. split; vm_compute; discriminate. Qed.

(** ** Sub-table override rules *)

Section Overrides.

Import Subtable.

Lemma default_props_read (field : string) :
  default VUndef (own DEFAULT_SUBTABLE_PROPS field) = VUndef.
Proof.
  unfold DEFAULT_SUBTABLE_PROPS. cbn [own].
  destruct (String.eqb _ field); [reflexivity|].
  destruct (String.eqb _ field); reflexivity.
Qed.

Lemma last_own_matching (rules : list SubtableRule) (subtable_id : value)
  (rowKey : string) (record : object) (field : string) :
  last_own (map sp_properties (matching_rules rules subtable_id rowKey record)) field
  = effective_field rules subtable_id rowKey record field.
Proof.
  unfold matching_rules, effective_field.
  rewrite !List.map_app, !(last_own_app (V:=value)).
  destruct (last_own (map sp_properties (List.filter (key_matched rowKey record) rules)) field);
    reflexivity.
Qed.

(** C1: the effective properties of a row's sub-table are the properties of
    the rules that match, merged field by field in the order default rules,
    rules for the sub-table's id, rules for the row's key, a later rule
    overwriting an earlier one; so a field reads as the key-matched rule
    gives it, else as the id-matched rule does, else as the default rule
    does.  (The two reset fields of [DEFAULT_SUBTABLE_PROPS] lie under the
    merge with the value [undefined].) *)
Theorem C1_subtable_precedence (rules : list SubtableRule) (subtable_id : value)
  (rowKey : string) (record : object) (field : string) :
  own (subtableProps (Some rules) subtable_id rowKey record) field
  = match own (assign_all
                 (map sp_properties
                      (List.filter sp_default rules
                       ++ List.filter (id_matched subtable_id) rules
                       ++ List.filter (key_matched rowKey record) rules))) field with
    | Some v => Some v
    | None => own DEFAULT_SUBTABLE_PROPS field
    end
  /\ get (subtableProps (Some rules) subtable_id rowKey record) field
     = get (assign_all
              (map sp_properties
                   (List.filter sp_default rules
                    ++ List.filter (id_matched subtable_id) rules
                    ++ List.filter (key_matched rowKey record) rules))) field
  /\ get (subtableProps (Some rules) subtable_id rowKey record) field
     = default VUndef (effective_field rules subtable_id rowKey record field).
Proof.
  assert (Hown : own (subtableProps (Some rules) subtable_id rowKey record) field
                 = match effective_field rules subtable_id rowKey record field with
                   | Some v => Some v
                   | None => own DEFAULT_SUBTABLE_PROPS field
                   end).
  { unfold subtableProps. rewrite own_assign_all. cbn [last_own].
    rewrite own_assign_all, last_own_matching.
    destruct (effective_field rules subtable_id rowKey record field); reflexivity. }
  fold (matching_rules rules subtable_id rowKey record).
  rewrite own_assign_all, last_own_matching.
  split; [exact Hown|]. unfold get. rewrite Hown, own_assign_all, last_own_matching.
  destruct (effective_field rules subtable_id rowKey record field);
    [split; reflexivity|].
  rewrite default_props_read. split; reflexivity.
Qed.

End Overrides.

(** The specification's example: in table ["T1"] the row with key 5 resolves
    [color] to red, the row with key 6 to blue; in another table a row with
    neither match resolves it to grey. *)
Example colour_example :
  get (Subtable.subtableProps (Some Sample.colour_rules) (VStr "T1") "key"
         [("key", VNum 5)]) "color" = VStr "red"
  /\ get (Subtable.subtableProps (Some Sample.colour_rules) (VStr "T1") "key"
            [("key", VNum 6)]) "color" = VStr "blue"
  /\ get (Subtable.subtableProps (Some Sample.colour_rules) (VStr "T2") "key"
            [("key", VNum 6)]) "color" = VStr "grey".
Proof. repeat split; reflexivity. Qed.

(** ** Cell editing *)

Section Editing.

Import Edit.








End Editing.



(** Under the modelled [setValue], a path of two keys is written through
    the object the copy shares with the host's row: after the city of the
    row's address is edited, the address the host's row points at holds the
    new city. *)
Example nested_path_writes_shared_object :
  exists s',
    Edit.edit None (Edit.HRef 1%positive) (VArr [VStr "address"; VStr "city"]) true 0
      (Edit.HStr "y") Sample.nested_store
    = (Eff.Normal tt, s')
    /\ Edit.heap Sample.nested_store !! 3%positive
       = Some (Edit.CObject [("city", Edit.HStr "x")])
    /\ Edit.heap s' !! 2%positive
       = Some (Edit.CObject [("name", Edit.HStr "a"); ("address", Edit.HRef 3%positive)])
    /\ Edit.heap s' !! 3%positive = Some (Edit.CObject [("city", Edit.HStr "y")]).
Proof.
  eexists. split; [vm_compute; reflexivity|].
  split; [reflexivity|]. split; vm_compute; reflexivity.
Qed.

(** ** The unresolved component in the earlier revision *)

(** C3 at the earlier [renderGenerator]: for the column [{"ui:type":"nope"}],
    with no built-in renderer and no registry entry of that name, the render
    function does not throw, and what it returns for the cell value 1 is the
    text ["1"], in which the identifier ["nope"] does not occur. *)
Theorem C3_legacy_fallback :
  exists render,
    Legacy.renderGenerator (Component := unit) ∅ ∅ VUndef [("ui:type", VStr "nope")]
    = Eff.Normal render
    /\ render (VNum 1) [("name", VStr "a")] 0%nat = Legacy.Text (Some "1")
    /\ Str.includes "nope" "1" = false.
Proof.
  eexists. split; [reflexivity|]. split; reflexivity.
Qed.

(** The earlier revision returns the JSON text of the cell value for every
    identifier that resolves to nothing, whatever the identifier. *)
Lemma legacy_unresolved {Component : Type} (builtins : gmap string Component)
  (components : gmap string (gmap string Component)) (ext : value)
  (schema : object) (uiType : string) :
  get schema "ui:type" = VStr uiType ->
  builtins !! uiType = None ->
  (forall libName componentName rest,
      Str.split_colons uiType = libName :: componentName :: rest ->
      components !! libName ≫= (fun lib => lib !! componentName) = None) ->
  Legacy.renderGenerator builtins components ext schema
  = Eff.Normal (fun value _ _ => Legacy.Text (JSON_stringify value)).
Proof.
  intros Ht Hb He. unfold Legacy.renderGenerator. rewrite Ht.
  assert (Hlook : (if truthy (if has schema "ui:type" then VStr uiType else VUndef)
                   then builtins !! to_string (if has schema "ui:type"
                                               then VStr uiType else VUndef)
                   else None) = None).
  { destruct (has schema "ui:type"); [|reflexivity].
    destruct (truthy (VStr uiType)); [exact Hb | reflexivity]. }
  rewrite Hlook.
  destruct (Str.split_colons uiType) as [|libName [|componentName rest]] eqn:Hs;
    try reflexivity.
  rewrite (He libName componentName rest eq_refl).
  destruct (negb _ && negb _); reflexivity.
Qed.

(** The current revision on the same identifier: the placeholder names it. *)
Example current_placeholder :
  exists render,
    DripTable.renderGenerator (Component := unit) (ReactNode := unit)
      (AjvOptions := unit) ∅ (fun _ _ _ => EmptyString)
      (Sample.plain_props (Sample.no_subtable_schema []) [])
      [("component", VStr "nope")]
    = Eff.Normal render
    /\ render (VNum 1) [("name", VStr "a")] 0%nat
       = DripTable.ErrorDiv "Unknown column component: nope"
    /\ Str.includes "nope" "Unknown column component: nope" = true.
Proof.
  eexists. split; [reflexivity|]. split; reflexivity.
Qed.

(** * Further properties of the code *)

(** ** The state hook under several dispatches *)

(** X1: after any sequence of dispatched patches a field of the state is
    what the last patch naming it wrote, and the initial state's value when
    no patch names it. *)
Theorem useState_last_patch_wins (initState : object) (patches : list object)
  (k : string) :
  own (Hooks.useState initState (map Hooks.Patch patches)) k
  = match last_own patches k with
    | Some v => Some v
    | None => own initState k
    end.
Proof.
  unfold Hooks.useState. revert initState.
  induction patches as [|p rest IH]; intros state; simpl; [reflexivity|].
  rewrite IH, reducer_own. simpl.
  destruct (last_own rest k); reflexivity.
Qed.

(** ** Column visibility *)

Section Visibility.

Context {Component ReactNode AjvOptions : Type}.
Variable builtins : gmap string Component.
Variable validateColumn : object -> Component -> option AjvOptions -> string.
Variable props : DripTable.Props Component ReactNode AjvOptions.

Import DripTable.

Lemma column_visible_array (keys : list value) (w : World) (column : object) :
  get (tableState w) "displayColumnKeys" = VArr keys ->
  column_visible column w
  = (Eff.Normal (negb (truthy (get column "hidable"))
                 || existsb (strict_eq (get column "key")) keys), w).
Proof.
  intros Hk. unfold column_visible.
  destruct (negb (truthy (get column "hidable"))); [reflexivity|].
  unfold Eff.bind, Eff.gets. rewrite Hk. reflexivity.
Qed.

Lemma filterM_column_visible (keys : list value) (w : World) (cols : list object) :
  get (tableState w) "displayColumnKeys" = VArr keys ->
  filterM column_visible cols w
  = (Eff.Normal (TableParts.visible_columns keys cols), w).
Proof.
  intros Hk. induction cols as [|c r IH]; simpl; [reflexivity|].
  unfold Eff.bind at 1. rewrite (column_visible_array keys w c Hk).
  unfold Eff.bind at 1. rewrite IH. unfold Eff.ret.
  destruct (negb (truthy (get c "hidable")) || existsb (strict_eq (get c "key")) keys);
    reflexivity.
Qed.

Lemma mapM_columnGenerator (xs : list object) (w w' : World)
  (ys : list (TableColumn Component)) :
  Eff.mapM (fun c => lift (columnGenerator builtins validateColumn props c)) xs w
  = (Eff.Normal ys, w') ->
  w' = w
  /\ map col_width ys = map (fun c => normalize_width (get c "width")) xs.
Proof.
  revert ys. induction xs as [|c r IH]; intros ys; simpl.
  - unfold Eff.ret. intros H. injection H as <- <-. split; reflexivity.
  - unfold Eff.bind at 1.
    destruct (columnGenerator builtins validateColumn props c) as [y|] eqn:Hy;
      simpl; [|unfold Eff.throw; discriminate].
    unfold Eff.ret at 1. unfold Eff.bind at 1.
    destruct (Eff.mapM _ r w) as [[ys'|] w''] eqn:Hr; [|discriminate].
    unfold Eff.ret. intros H. injection H as <- <-.
    destruct (IH ys' eq_refl) as [-> Hw]. split; [reflexivity|].
    simpl. rewrite Hw. f_equal.
    unfold columnGenerator in Hy.
    destruct (renderGenerator builtins validateColumn props c); [|discriminate].
    injection Hy as <-. reflexivity.
Qed.

Lemma mapM_columnGenerator_each (xs : list object) (w w' : World)
  (ys : list (TableColumn Component)) :
  Eff.mapM (fun c => lift (columnGenerator builtins validateColumn props c)) xs w
  = (Eff.Normal ys, w') ->
  Forall2 (fun c col => columnGenerator builtins validateColumn props c
                        = Eff.Normal col) xs ys.
Proof.
  revert ys. induction xs as [|c r IH]; intros ys; simpl.
  - unfold Eff.ret. intros H. injection H as <- <-. constructor.
  - unfold Eff.bind at 1.
    destruct (columnGenerator builtins validateColumn props c) as [y|] eqn:Hy;
      simpl; [|unfold Eff.throw; discriminate].
    unfold Eff.ret at 1. unfold Eff.bind at 1.
    destruct (Eff.mapM _ r w) as [[ys'|] w''] eqn:Hr; [|discriminate].
    unfold Eff.ret. intros H. injection H as <- <-.
    constructor; [exact Hy | exact (IH ys' eq_refl)].
Qed.

(** X2: when the displayed keys of the state are an array and no column
    generator throws, the columns handed to the driver are, one for one and
    in the schema's order, the descriptors that [columnGenerator] makes of
    those columns of the schema that are not hidable or whose key is among
    the displayed keys: the n-th descriptor is the one generated from the
    n-th visible column.  So each has that column's normalized width, there
    are as many as there are non-hidable columns and displayed hidable ones,
    and the state is left as it was. *)
Theorem tableProps_columns_visible (keys : list value) (w w' : World)
  (cols : list (TableColumn Component)) :
  get (tableState w) "displayColumnKeys" = VArr keys ->
  tableProps_columns builtins validateColumn props w = (Eff.Normal cols, w') ->
  w' = w
  /\ Forall2 (fun c col => columnGenerator builtins validateColumn props c
                           = Eff.Normal col)
             (TableParts.visible_columns keys (columns (schema props))) cols
  /\ map col_width cols
     = map (fun c => normalize_width (get c "width"))
           (TableParts.visible_columns keys (columns (schema props)))
  /\ length cols
     = length (List.filter (fun c => negb (truthy (get c "hidable")))
                           (columns (schema props))
               ++ List.filter (fun c => truthy (get c "hidable")
                                        && existsb (strict_eq (get c "key")) keys)
                              (columns (schema props)))%list.
Proof.
  intros Hk Hrun. unfold tableProps_columns, Eff.bind in Hrun.
  rewrite (filterM_column_visible keys w _ Hk) in Hrun.
  pose proof (mapM_columnGenerator_each _ _ _ _ Hrun) as Heach.
  apply mapM_columnGenerator in Hrun as [-> Hw].
  split; [reflexivity|]. split; [exact Heach|]. split; [exact Hw|].
  apply (f_equal (@length _)) in Hw. rewrite !length_map in Hw. rewrite Hw.
  unfold TableParts.visible_columns. rewrite length_app.
  clear Hw Heach. induction (columns (schema props)) as [|c r IH]; simpl; [reflexivity|].
  destruct (truthy (get c "hidable")); simpl;
    [destruct (existsb (strict_eq (get c "key")) keys); simpl|];
    rewrite ?length_app in *; simpl; lia.
Qed.

(** X3: a schema without hidable columns never consults the displayed keys:
    whatever the state holds, the filter keeps every column. *)
Theorem no_hidable_all_visible (w : World) :
  forallb (fun c => negb (truthy (get c "hidable"))) (columns (schema props)) = true ->
  filterM column_visible (columns (schema props)) w
  = (Eff.Normal (columns (schema props)), w).
Proof.
  induction (columns (schema props)) as [|c r IH]; simpl; [reflexivity|].
  intros H. apply andb_true_iff in H as [Hc Hr].
  assert (Hv : column_visible c w = (Eff.Normal true, w)).
  { unfold column_visible. rewrite Hc. reflexivity. }
  unfold Eff.bind at 1. rewrite Hv.
  unfold Eff.bind at 1. rewrite (IH Hr). reflexivity.
Qed.

End Visibility.

Lemma tableProps_columns_visible_witness :
  get (DripTable.tableState Sample2.name_displayed) "displayColumnKeys"
  = VArr [VStr "name"]
  /\ exists cols,
       DripTable.tableProps_columns Sample.text_only (fun _ _ _ => EmptyString)
         Sample2.three_columns_props Sample2.name_displayed
       = (Eff.Normal cols, Sample2.name_displayed)
       /\ Forall2 (fun c col =>
                     DripTable.columnGenerator Sample.text_only
                       (fun _ _ _ => EmptyString) Sample2.three_columns_props c
                     = Eff.Normal col)
                  (TableParts.visible_columns [VStr "name"]
                     (DripTable.columns (DripTable.schema Sample2.three_columns_props)))
                  cols
       /\ map DripTable.col_width cols = ["80px"; "50%"].
Proof.
  split; [reflexivity|].
  destruct (DripTable.tableProps_columns Sample.text_only (fun _ _ _ => EmptyString)
              Sample2.three_columns_props Sample2.name_displayed)
    as [[cols|] w'] eqn:Hrun; [|vm_compute in Hrun; discriminate].
  destruct (tableProps_columns_visible Sample.text_only (fun _ _ _ => EmptyString)
              Sample2.three_columns_props [VStr "name"] Sample2.name_displayed w' cols
              eq_refl Hrun) as (-> & Heach & Hw & _).
  exists cols. split; [reflexivity | split; [exact Heach | exact Hw]].
Defined.

Lemma no_hidable_all_visible_witness :
  forallb (fun c => negb (truthy (get c "hidable")))
    (DripTable.columns (DripTable.schema Sample.deprecated_props)) = true
  /\ DripTable.filterM DripTable.column_visible
       (DripTable.columns (DripTable.schema Sample.deprecated_props))
       {| DripTable.tableState := []; DripTable.trace := [] |}
     = (Eff.Normal (DripTable.columns (DripTable.schema Sample.deprecated_props)),
        {| DripTable.tableState := []; DripTable.trace := [] |}).
Proof.
  split; [reflexivity|].
  exact (no_hidable_all_visible Sample.deprecated_props
           {| DripTable.tableState := []; DripTable.trace := [] |} eq_refl).
Defined.

(** ** The state effects *)

Lemma own_spread_object (o : object) (k : string) :
  own (spread (VObj o)) k = own o k.
Proof. simpl. rewrite own_assign. simpl. destruct (own o k); reflexivity. Qed.

Lemma opt_member_or_undefined (v : value) (k : string) :
  TableParts.opt_member (or_else v VUndef) k = TableParts.opt_member v k.
Proof. destruct v as [| |[|]|n|s|l|o]; try reflexivity;
  unfold or_else; simpl; [destruct (n =? 0) | destruct (Str.is_empty s)]; reflexivity.
Qed.

(** X4: after the page-size effect the state's pagination has a truthy page
    size, the schema's when that is truthy and 10 otherwise (also for
    [pagination: false]); every other field of the pagination and every
    other field of the state is as before. *)
Theorem pageSize_effect (state : object) (schema_pagination : value) :
  exists pag',
    get (Hooks.reducer state (TableParts.pageSize_updater schema_pagination))
        "pagination" = VObj pag'
    /\ get pag' "pageSize"
       = (if truthy (TableParts.opt_member schema_pagination "pageSize")
          then TableParts.opt_member schema_pagination "pageSize"
          else VNum 10)
    /\ truthy (get pag' "pageSize") = true
    /\ (forall k, k <> "pageSize" ->
                  own pag' k = own (spread (get state "pagination")) k)
    /\ (forall k, k <> "pagination" ->
                  own (Hooks.reducer state
                         (TableParts.pageSize_updater schema_pagination)) k
                  = own state k).
Proof.
  eexists. split; [|split; [|split; [|split]]].
  - unfold get. rewrite reducer_own. reflexivity.
  - rewrite get_set, opt_member_or_undefined. reflexivity.
  - rewrite get_set, opt_member_or_undefined.
    cbn [String.eqb Ascii.eqb Bool.eqb]. unfold or_else.
    destruct (truthy (TableParts.opt_member _ "pageSize")) eqn:Ht;
      [exact Ht | reflexivity].
  - intros k Hk. rewrite own_set.
    destruct (String.eqb_spec "pageSize" k); [congruence | reflexivity].
  - intros k Hk. rewrite reducer_own. cbn [Hooks.data_of TableParts.pageSize_updater own].
    destruct (String.eqb_spec "pagination" k); [congruence | reflexivity].
Qed.

Lemma strict_eq_primitive_refl (v : value) :
  match v with VArr _ | VObj _ => False | _ => True end -> strict_eq v v = true.
Proof.
  destruct v as [| |b|n|s|l|o]; simpl; try tauto; intros _.
  - destruct b; reflexivity.
  - apply Z.eqb_refl.
  - apply String.eqb_refl.
Qed.

(** X5: when the host gives no list of displayed columns, the effect that
    derives the list makes every column of the schema visible, provided the
    keys of the hidable columns are strings, numbers or other primitives. *)
Theorem displayColumnKeys_effect_shows_all (state : object)
  (displayColumnKeys : value) (columns : list object) :
  truthy displayColumnKeys = false ->
  Forall (fun c => match get c "key" with VArr _ | VObj _ => False | _ => True end)
         columns ->
  exists keys,
    get (Hooks.reducer state
           (TableParts.displayColumnKeys_updater displayColumnKeys columns))
        "displayColumnKeys" = VArr keys
    /\ keys = map (fun c => get c "key")
                  (List.filter (fun c => truthy (get c "hidable")) columns)
    /\ TableParts.visible_columns keys columns = columns.
Proof.
  intros Hdk Hprim. eexists. split; [|split; [reflexivity|]].
  - unfold get. rewrite reducer_own.
    cbn [Hooks.data_of TableParts.displayColumnKeys_updater own String.eqb
         Ascii.eqb Bool.eqb]. unfold or_else. rewrite Hdk. reflexivity.
  - unfold TableParts.visible_columns.
    set (keys := map (fun c => get c "key")
                     (List.filter (fun c => truthy (get c "hidable")) columns)).
    assert (Hall : forall c, c ∈ columns ->
                negb (truthy (get c "hidable"))
                || existsb (strict_eq (get c "key")) keys = true).
    { intros c Hc. destruct (truthy (get c "hidable")) eqn:Hh; [|reflexivity].
      simpl. apply existsb_exists. exists (get c "key"). split.
      - unfold keys. apply in_map_iff. exists c. split; [reflexivity|].
        apply filter_In. split; [apply list_elem_of_In, Hc | exact Hh].
      - apply strict_eq_primitive_refl.
        rewrite Forall_forall in Hprim. apply Hprim, Hc. }
    clearbody keys. induction columns as [|c r IH]; simpl; [reflexivity|].
    rewrite (Hall c) by apply list_elem_of_here.
    f_equal. apply IH.
    + inversion Hprim; assumption.
    + intros c' Hc'. apply Hall. apply list_elem_of_further, Hc'.
Qed.

Lemma displayColumnKeys_effect_shows_all_witness :
  truthy VUndef = false
  /\ Forall (fun c => match get c "key" with VArr _ | VObj _ => False | _ => True end)
            Sample2.three_columns
  /\ exists keys,
       get (Hooks.reducer [] (TableParts.displayColumnKeys_updater VUndef
                                Sample2.three_columns))
           "displayColumnKeys" = VArr keys
       /\ keys = [VStr "name"; VStr "note"]
       /\ TableParts.visible_columns keys Sample2.three_columns
          = Sample2.three_columns.
Proof.
  assert (Hprim : Forall (fun c => match get c "key" with
                                   | VArr _ | VObj _ => False | _ => True end)
                         Sample2.three_columns).
  { repeat constructor. }
  split; [reflexivity|]. split; [exact Hprim|].
  exact (displayColumnKeys_effect_shows_all [] VUndef Sample2.three_columns
           eq_refl Hprim).
Defined.

(** ** Row keys *)

Section RowKeys.

Context {Component ReactNode AjvOptions : Type}.
Variable props : DripTable.Props Component ReactNode AjvOptions.

Import DripTable.

(** X6: when no record of the data set defines the row-key field, the row
    keys of the rendered data set are 0, 1, 2, ... in order, hence pairwise
    different. *)
Theorem synthetic_keys_distinct :
  Forall (fun item => is_undefined (get item (tableProps_rowKey props)) = true)
         (dataSource props) ->
  map (fun row => get row (tableProps_rowKey props)) (tableProps_dataSource props)
  = map (fun i => VNum (Z.of_nat i)) (seq 0 (length (dataSource props)))
  /\ NoDup (map (fun row => get row (tableProps_rowKey props))
                (tableProps_dataSource props)).
Proof.
  intros Hall.
  assert (Heq : map (fun row => get row (tableProps_rowKey props))
                    (tableProps_dataSource props)
                = map (fun i => VNum (Z.of_nat i)) (seq 0 (length (dataSource props)))).
  { unfold tableProps_dataSource.
    change (map (fun row => get row (tableProps_rowKey props)))
      with (fmap (M:=list) (fun row => get row (tableProps_rowKey props))).
    rewrite fmap_imap. rewrite <- imap_seq_0.
    apply list_eq. intros i. rewrite !list_lookup_imap.
    destruct (dataSource props !! i) as [item|] eqn:Hi; [|reflexivity].
    simpl. f_equal. unfold get at 1. rewrite keyed_record_own, String.eqb_refl.
    simpl. rewrite Forall_forall in Hall.
    rewrite (Hall item); [reflexivity|].
    apply list_elem_of_lookup. eauto. }
  split; [exact Heq|]. rewrite Heq.
  assert (Hinj : Inj (=) (=) (fun i : nat => VNum (Z.of_nat i))).
  { intros i j H. injection H as H. lia. }
  apply (NoDup_fmap_2 (fun i => VNum (Z.of_nat i))), NoDup_seq.
Qed.

(** X7: a record that went through the keying once keeps all its fields,
    the row key included, when it is keyed again at any position. *)
Theorem keyed_record_stable (i j : nat) (item : object) (k : string) :
  own (keyed_record props j (keyed_record props i item)) k
  = own (keyed_record props i item) k.
Proof.
  rewrite (keyed_record_own props j).
  destruct (String.eqb_spec (tableProps_rowKey props) k) as [<-|Hne]; [|reflexivity].
  unfold get at 1 2. rewrite !keyed_record_own, String.eqb_refl. simpl.
  destruct (is_undefined (get item (tableProps_rowKey props))) eqn:Hu;
    [reflexivity|]. rewrite Hu. reflexivity.
Qed.

End RowKeys.

Lemma synthetic_keys_distinct_witness :
  Forall (fun item =>
            is_undefined (get item (DripTable.tableProps_rowKey Sample.two_names_props))
            = true)
         (DripTable.dataSource Sample.two_names_props)
  /\ NoDup (map (fun row => get row "key")
                (DripTable.tableProps_dataSource Sample.two_names_props)).
Proof.
  assert (H : Forall (fun item =>
                        is_undefined
                          (get item (DripTable.tableProps_rowKey Sample.two_names_props))
                        = true)
                     (DripTable.dataSource Sample.two_names_props)).
  { repeat constructor. }
  split; [exact H|].
  exact (proj2 (synthetic_keys_distinct Sample.two_names_props H)).
Defined.

(** A host key that equals another record's position collides with that
    record's synthetic key. *)
Example row_key_collision :
  map (fun row => get row "key")
      (DripTable.tableProps_dataSource
         (Sample.plain_props (Sample.no_subtable_schema [])
            [[("name", VStr "a")]; [("key", VNum 0)]]))
  = [VNum 0; VNum 0].
Proof. reflexivity. Qed.

(** ** The rewrite of deprecated columns, once more *)

Section RewriteAgain.

Context {Component ReactNode AjvOptions : Type}.
Variable builtins : gmap string Component.
Variable validateProps :
  DripTable.Props Component ReactNode AjvOptions -> option AjvOptions -> string.
Variable validateColumn : object -> Component -> option AjvOptions -> string.

Import DripTable.

Lemma rewritten_no_deprecated_key (column : object) :
  own (Spec.rewritten column) "ui:type" = None
  /\ own (Spec.rewritten column) "ui:props" = None.
Proof.
  unfold Spec.rewritten.
  destruct (has column "ui:type" || has column "ui:props") eqn:Hdep.
  - rewrite !current_form_own. split; reflexivity.
  - apply orb_false_iff in Hdep as [H1 H2]. unfold has in H1, H2.
    destruct (own column "ui:type"); [discriminate|].
    destruct (own column "ui:props"); [discriminate|]. split; reflexivity.
Qed.

Lemma rewritten_not_deprecated (cols : list object) :
  existsb uses_deprecated (map Spec.rewritten cols) = false.
Proof.
  induction cols as [|c r IH]; simpl; [reflexivity|].
  rewrite IH, orb_false_r. unfold uses_deprecated, get.
  destruct (rewritten_no_deprecated_key c) as [-> ->]. reflexivity.
Qed.

(** X8: the rewrite is idempotent and the second pass is silent: a rewritten
    column carries neither deprecated key, rewriting it again returns it
    unchanged, and a render of props whose columns were rewritten logs no
    deprecation warning and leaves the props as they are. *)
Theorem rewrite_idempotent (props : Props Component ReactNode AjvOptions)
  (w : World) :
  let props' :=
    with_schema props
      (with_columns (schema props) (map Spec.rewritten (columns (schema props)))) in
  rewrite_props props' w = (Eff.Normal props', w)
  /\ (forall column,
        has (Spec.rewritten column) "ui:type" = false
        /\ has (Spec.rewritten column) "ui:props" = false
        /\ Spec.rewritten (Spec.rewritten column) = Spec.rewritten column).
Proof.
  intros props'. split.
  - unfold rewrite_props, props'. cbn [schema with_schema columns with_columns].
    rewrite rewritten_not_deprecated. reflexivity.
  - intros column. destruct (rewritten_no_deprecated_key column) as [H1 H2].
    assert (Hh : has (Spec.rewritten column) "ui:type" = false
                 /\ has (Spec.rewritten column) "ui:props" = false).
    { unfold has. rewrite H1, H2. split; reflexivity. }
    destruct Hh as [Hh1 Hh2]. split; [exact Hh1|]. split; [exact Hh2|].
    unfold Spec.rewritten at 1. rewrite Hh1, Hh2. reflexivity.
Qed.

(** X9: a column whose only deprecated sign is a falsy ["ui:type"] (or
    ["ui:props"]) does not trigger the rewrite: when no column has a truthy
    one, the props pass unchanged and nothing is logged, whichever keys the
    columns carry. *)
Theorem rewrite_needs_truthy (props : Props Component ReactNode AjvOptions)
  (w : World) :
  Forall (fun c => truthy (get c "ui:type") = false
                   /\ truthy (get c "ui:props") = false)
         (columns (schema props)) ->
  rewrite_props props w = (Eff.Normal props, w).
Proof.
  intros Hall. unfold rewrite_props.
  assert (Hno : existsb uses_deprecated (columns (schema props)) = false).
  { induction Hall as [|c r [H1 H2] _ IH]; simpl; [reflexivity|].
    rewrite IH, orb_false_r. unfold uses_deprecated, or_else.
    rewrite H1. exact H2. }
  rewrite Hno. reflexivity.
Qed.

(** X10: with validation on, a failed validation of the (rewritten) props
    ends the render with the error surface: the result is the text
    ["Props validate failed: "] followed by the message, no column is
    generated and nothing is thrown, and only the deprecation warnings were
    logged. *)
Theorem props_validation_fails_closed (props : Props Component ReactNode AjvOptions)
  (w : World) (options : option AjvOptions) (message : string) :
  let rewrite := existsb uses_deprecated (columns (schema props)) in
  let props' :=
    if rewrite
    then with_schema props
           (with_columns (schema props) (map Spec.rewritten (columns (schema props))))
    else props in
  ajv props = AjvOn options ->
  validateProps props' options = message ->
  message <> EmptyString ->
  DripTable builtins validateProps validateColumn props w
  = (Eff.Normal (PropsError ("Props validate failed: " +:+ message)),
     Spec.logged w (if rewrite
                    then flat_map Spec.column_warnings (columns (schema props))
                    else [])).
Proof.
  intros rewrite props' Hajv Hmsg Hne.
  assert (Hrw : rewrite_props props w
                = (Eff.Normal props',
                   Spec.logged w (if rewrite
                                  then flat_map Spec.column_warnings
                                         (columns (schema props))
                                  else []))).
  { unfold rewrite_props, props'. fold rewrite. destruct rewrite.
    - unfold Eff.bind. rewrite rewrite_columns_run. reflexivity.
    - rewrite logged_nil. reflexivity. }
  unfold DripTable, Eff.bind. rewrite Hrw.
  unfold DripTable_body, props_error.
  assert (Hajv' : ajv props' = AjvOn options).
  { unfold props'. destruct rewrite; exact Hajv. }
  rewrite Hajv', Hmsg.
  destruct message; [congruence | reflexivity].
Qed.

(** X11: [renderGenerator] throws exactly when the column has a
    [component] property that names no built-in renderer and is not a
    string; on a string identifier, or without the property, it returns a
    render function. *)
Theorem renderGenerator_throws_iff (props : Props Component ReactNode AjvOptions)
  (schema : object) :
  renderGenerator builtins validateColumn props schema = Eff.TypeError
  <-> (has schema "component" = true
       /\ builtins !! to_string (get schema "component") = None
       /\ match get schema "component" with VStr _ => False | _ => True end).
Proof.
  unfold renderGenerator. split.
  - destruct (has schema "component"); [|discriminate].
    destruct (builtins !! to_string (get schema "component")); [discriminate|].
    destruct (get schema "component") as [| |b|n|s|l|o]; try (intros _; tauto).
    destruct (Str.split_colons s) as [|libName [|componentName rest]];
      try discriminate.
    destruct (negb _ && negb _); [|discriminate].
    destruct (extra_component props libName componentName); discriminate.
  - intros (-> & -> & Hs).
    destruct (get schema "component"); try reflexivity. contradiction.
Qed.

End RewriteAgain.

Lemma rewrite_needs_truthy_witness :
  Forall (fun c => truthy (get c "ui:type") = false
                   /\ truthy (get c "ui:props") = false)
         [[("key", VStr "name"); ("ui:type", VStr EmptyString)]]
  /\ DripTable.rewrite_props
       (Sample.plain_props
          (Sample.no_subtable_schema
             [[("key", VStr "name"); ("ui:type", VStr EmptyString)]]) [])
       Sample.first_page
     = (Eff.Normal
          (Sample.plain_props
             (Sample.no_subtable_schema
                [[("key", VStr "name"); ("ui:type", VStr EmptyString)]]) []),
        Sample.first_page).
Proof.
  assert (H : Forall (fun c => truthy (get c "ui:type") = false
                               /\ truthy (get c "ui:props") = false)
                     [[("key", VStr "name"); ("ui:type", VStr EmptyString)]]).
  { repeat constructor. }
  split; [exact H|].
  exact (rewrite_needs_truthy
           (Sample.plain_props
              (Sample.no_subtable_schema
                 [[("key", VStr "name"); ("ui:type", VStr EmptyString)]]) [])
           Sample.first_page H).
Defined.

Lemma props_validation_fails_closed_witness :
  DripTable.ajv Sample2.validated_props = DripTable.AjvOn None
  /\ "schema is wrong" <> EmptyString
  /\ fst (DripTable.DripTable Sample.text_only (fun _ _ => "schema is wrong")
            (fun _ _ _ => EmptyString) Sample2.validated_props Sample.first_page)
     = Eff.Normal (DripTable.PropsError "Props validate failed: schema is wrong").
Proof.
  split; [reflexivity|]. split; [discriminate|].
  rewrite (props_validation_fails_closed Sample.text_only
             (fun _ _ => "schema is wrong") (fun _ _ _ => EmptyString)
             Sample2.validated_props Sample.first_page None "schema is wrong"
             eq_refl eq_refl ltac:(discriminate)).
  reflexivity.
Defined.

(** A deprecated column with options only comes out of the rewrite with an
    undefined [component], on which the generator throws. *)
Example options_only_column_throws :
  DripTable.renderGenerator (Component := unit) (ReactNode := unit)
    (AjvOptions := unit) Sample.text_only (fun _ _ _ => EmptyString)
    Sample.two_names_props
    (Spec.rewritten [("key", VStr "name"); ("ui:props", VObj [("fontSize", VStr "12")])])
  = Eff.TypeError.
Proof. reflexivity. Qed.

(** ** Sub-tables *)

Section SubtableMore.

Import Subtable.

Lemma handed_down_child_rule (rowKey : string) (record : object)
  (sp : SubtableRule) :
  SubtableProps.handed_down rowKey record sp
  = if match sp_recordKeys (child_rule rowKey record sp) with
       | Some [] => false
       | _ => true
       end
    then Some (child_rule rowKey record sp)
    else None.
Proof.
  unfold child_rule, SubtableProps.handed_down.
  destruct (sp_recordKeys sp) as [[|k [|k' rest]]|] eqn:Hk; cbn [nth].
  - destruct (negb (Str.is_empty rowKey) && strict_eq VUndef (get record rowKey));
      reflexivity.
  - destruct (negb (Str.is_empty rowKey) && strict_eq k (get record rowKey));
      reflexivity.
  - destruct (negb (Str.is_empty rowKey) && strict_eq k (get record rowKey));
      reflexivity.
  - rewrite Hk. reflexivity.
Qed.

Lemma child_rules_omap (rules : list SubtableRule) (rowKey : string)
  (record : object) :
  child_rules rules rowKey record
  = omap (SubtableProps.handed_down rowKey record) rules.
Proof.
  unfold child_rules. induction rules as [|sp r IH]; [reflexivity|].
  cbn [map List.filter omap list_omap]. rewrite IH, handed_down_child_rule.
  destruct (sp_recordKeys (child_rule rowKey record sp)) as [[|? ?]|]; reflexivity.
Qed.

(** X12: a rule reaches the table nested in a row exactly in one of two
    ways: it has no record keys and is handed down as it is, or its first
    record key is this row's key and more keys follow, and it is handed
    down without that first key.  So a rule tied to another row, and a rule
    whose keys end at this row, never reach the nested table. *)
Theorem child_rules_spec (rules : list SubtableRule) (rowKey : string)
  (record : object) (sp' : SubtableRule) :
  sp' ∈ child_rules rules rowKey record
  <-> exists sp,
        sp ∈ rules
        /\ ((sp_recordKeys sp = None /\ sp' = sp)
            \/ exists k k' rest,
                 sp_recordKeys sp = Some (k :: k' :: rest)
                 /\ Str.is_empty rowKey = false
                 /\ strict_eq k (get record rowKey) = true
                 /\ sp' = {| sp_subtableID := sp_subtableID sp;
                             sp_recordKeys := Some (k' :: rest);
                             sp_default := sp_default sp;
                             sp_properties := sp_properties sp |}).
Proof.
  rewrite child_rules_omap, list_elem_of_omap. split.
  - intros (sp & Hin & Hd). exists sp. split; [exact Hin|].
    unfold SubtableProps.handed_down in Hd.
    destruct (sp_recordKeys sp) as [[|k [|k' rest]]|] eqn:Hk; try discriminate.
    + destruct (negb (Str.is_empty rowKey)) eqn:He; [|discriminate].
      destruct (strict_eq k (get record rowKey)) eqn:Hs; [|discriminate].
      simpl in Hd. injection Hd as <-. right. exists k, k', rest.
      apply negb_true_iff in He. auto.
    + injection Hd as <-. left. auto.
  - intros (sp & Hin & [[Hk ->]|(k & k' & rest & Hk & He & Hs & ->)]);
      exists sp; (split; [exact Hin|]);
      unfold SubtableProps.handed_down; rewrite Hk; [reflexivity|].
    rewrite He, Hs. reflexivity.
Qed.

(** X13: a rule with the two record keys [k1; k2] takes effect two levels
    down, and only there: it is not key-matched at the top, it goes down
    into the row with key [k1] carrying [[k2]], there it key-matches the
    rows with key [k2], and it goes no further. *)
Theorem two_key_rule_applies_at_depth_two (sp : SubtableRule) (k1 k2 : value)
  (rowKey : string) (record child : object) :
  sp_recordKeys sp = Some [k1; k2] ->
  Str.is_empty rowKey = false ->
  strict_eq k1 (get record rowKey) = true ->
  key_matched rowKey record sp = false
  /\ exists sp',
       child_rules [sp] rowKey record = [sp']
       /\ sp_properties sp' = sp_properties sp
       /\ key_matched rowKey child sp' = strict_eq k2 (get child rowKey)
       /\ child_rules [sp'] rowKey child = [].
Proof.
  intros Hk He Hs. split.
  - unfold key_matched. rewrite Hk. reflexivity.
  - eexists. split; [|split; [|split]].
    + rewrite child_rules_omap. simpl. unfold SubtableProps.handed_down.
      rewrite Hk, He, Hs. reflexivity.
    + reflexivity.
    + reflexivity.
    + rewrite child_rules_omap. reflexivity.
Qed.

(** X14: the two reset properties never pass from a table to its sub-table:
    in the props of the nested table each of them is what the matching
    rules give it, and [undefined] when no matching rule has it, whatever
    the parent's props hold, and also when there are no rules at all. *)
Theorem reset_props_do_not_leak (props : object) (rules : option (list SubtableRule))
  (subtable_id : value) (rowKey : string) (record : object) (field : string) :
  field = "defaultExpandAllRows" \/ field = "defaultExpandedRowKeys" ->
  get (SubtableProps.nested_spread props
         (subtableProps rules subtable_id rowKey record)) field
  = match rules with
    | Some rs => default VUndef (effective_field rs subtable_id rowKey record field)
    | None => VUndef
    end.
Proof.
  intros Hf. unfold SubtableProps.nested_spread, get.
  rewrite own_assign.
  assert (Hown : own (subtableProps rules subtable_id rowKey record) field
                 = Some (match rules with
                         | Some rs =>
                             default VUndef
                               (effective_field rs subtable_id rowKey record field)
                         | None => VUndef
                         end)).
  { unfold subtableProps. rewrite own_assign_all. destruct rules as [rs|].
    - cbn [last_own]. rewrite own_assign_all, last_own_matching.
      destruct (effective_field rs subtable_id rowKey record field);
        [reflexivity|].
      destruct Hf as [-> | ->]; reflexivity.
    - cbn [last_own]. destruct Hf as [-> | ->]; reflexivity. }
  rewrite Hown. reflexivity.
Qed.

End SubtableMore.

Lemma two_key_rule_witness :
  exists sp',
    Subtable.child_rules
      [ {| Subtable.sp_subtableID := VUndef;
           Subtable.sp_recordKeys := Some [VNum 5; VNum 7];
           Subtable.sp_default := false;
           Subtable.sp_properties := [("defaultExpandAllRows", VBool true)] |} ]
      "key" [("key", VNum 5)] = [sp']
    /\ Subtable.key_matched "key" [("key", VNum 7)] sp' = true.
Proof.
  destruct (two_key_rule_applies_at_depth_two
              {| Subtable.sp_subtableID := VUndef;
                 Subtable.sp_recordKeys := Some [VNum 5; VNum 7];
                 Subtable.sp_default := false;
                 Subtable.sp_properties := [("defaultExpandAllRows", VBool true)] |}
              (VNum 5) (VNum 7) "key" [("key", VNum 5)] [("key", VNum 7)]
              eq_refl eq_refl eq_refl)
    as (_ & sp' & H1 & _ & H3 & _).
  exists sp'. split; [exact H1|]. rewrite H3. reflexivity.
Defined.

Lemma reset_props_do_not_leak_witness :
  get (SubtableProps.nested_spread [("defaultExpandAllRows", VBool true)]
         (Subtable.subtableProps (Some Sample.colour_rules) (VStr "T1") "key"
            [("key", VNum 5)]))
      "defaultExpandAllRows"
  = VUndef.
Proof.
  rewrite (reset_props_do_not_leak [("defaultExpandAllRows", VBool true)]
             (Some Sample.colour_rules) (VStr "T1") "key" [("key", VNum 5)]
             "defaultExpandAllRows" (or_introl eq_refl)).
  reflexivity.
Defined.

(** ** Expanded rows *)

Section Expansion.

Context {Component ReactNode AjvOptions : Type}.
Variable props : DripTable.Props Component ReactNode AjvOptions.

Import DripTable.

(** X15: the expansion of a row holds a nested table exactly when the
    record's value under the sub-table's data-source key is an array, empty
    or not, and the nested table's data set is that array; so every row
    that is expandable through its sub-table rows expands to a nested table
    over those rows, and a row with an empty array, which is not expandable
    through the sub-table, still expands to an empty nested table when the
    host's predicate makes it expandable. *)
Theorem expansion_nested_iff_array (record : object) (index : nat) :
  fst (expandable_expandedRowRender props record index)
  = match subtable (schema props) with
    | Some sub =>
        match get record (sub_dataSourceKey sub) with
        | VArr rows => Some (VArr rows)
        | _ => None
        end
    | None => None
    end
  /\ (Spec.has_subtable_rows props record = true ->
      exists row rows,
        fst (expandable_expandedRowRender props record index)
        = Some (VArr (row :: rows))).
Proof.
  unfold expandable_expandedRowRender, Spec.has_subtable_rows. simpl.
  destruct (subtable (schema props)) as [sub|]; [|split; [reflexivity|discriminate]].
  destruct (get record (sub_dataSourceKey sub)) as [| | | | |[|row rows]|];
    simpl; split; try reflexivity; try discriminate.
  intros _. exists row, rows. reflexivity.
Qed.

End Expansion.

(** ** Slots, scrolling, pagination and selection *)

(** X16: a header or footer that is rendered always has elements: whenever
    the memo yields a slot, the length of its element list is truthy, so the
    slot renderer is never given an empty list; the shorthand [true] yields
    the built-in layout, and a falsy value or an empty or missing element
    list yields no slot. *)
Theorem slot_never_empty (slot : value) (s : TableParts.Slot) :
  TableParts.header slot = Some s \/ TableParts.footer slot = Some s ->
  truthy (TableParts.opt_length (TableParts.slot_schemas s)) = true
  /\ forall l, TableParts.slot_schemas s = VArr l -> l <> [].
Proof.
  intros H.
  assert (Hlen : truthy (TableParts.opt_length (TableParts.slot_schemas s)) = true).
  { unfold TableParts.header, TableParts.footer, TableParts.slot_of in H.
    destruct (strict_eq slot (VBool true)).
    - destruct H as [H|H]; injection H as <-; reflexivity.
    - destruct (negb (truthy slot)
                || negb (truthy (TableParts.opt_length
                                   (TableParts.opt_member slot "elements")))) eqn:Hc.
      + destruct H; discriminate.
      + apply orb_false_iff in Hc as [_ Hc]. apply negb_false_iff in Hc.
        destruct H as [H|H]; injection H as <-; exact Hc. }
  split; [exact Hlen|].
  intros l Hl. rewrite Hl in Hlen. destruct l; [discriminate | discriminate].
Qed.

Lemma slot_never_empty_witness :
  exists s,
    TableParts.header (VObj [("elements", VArr [VObj [("type", VStr "search")]])])
    = Some s
    /\ truthy (TableParts.opt_length (TableParts.slot_schemas s)) = true.
Proof.
  eexists. split; [reflexivity|].
  exact (proj1 (slot_never_empty
                  (VObj [("elements", VArr [VObj [("type", VStr "search")]])]) _
                  (or_introl eq_refl))).
Defined.

Example slot_examples :
  TableParts.header (VBool true)
  = Some {| TableParts.slot_style := VUndef;
            TableParts.slot_schemas := TableParts.default_header_schemas |}
  /\ TableParts.header (VBool false) = None
  /\ TableParts.header VUndef = None
  /\ TableParts.header (VObj [("elements", VArr [])]) = None
  /\ TableParts.header (VObj [("style", VObj [])]) = None
  /\ TableParts.footer (VBool true)
     = Some {| TableParts.slot_style := VUndef;
               TableParts.slot_schemas := TableParts.default_footer_schemas |}.
Proof. repeat split; reflexivity. Qed.

(** X17: the scroll settings given to the virtual table always have a truthy
    [x] and a truthy [y]: the schema's when those are truthy, ['100vw'] and
    300 otherwise; every other scroll setting of the schema is passed on. *)
Theorem virtual_scroll_defaults (schema_scroll : value) :
  get (TableParts.virtual_scroll schema_scroll) "x"
  = (if truthy (TableParts.opt_member schema_scroll "x")
     then TableParts.opt_member schema_scroll "x" else VStr "100vw")
  /\ get (TableParts.virtual_scroll schema_scroll) "y"
     = (if truthy (TableParts.opt_member schema_scroll "y")
        then TableParts.opt_member schema_scroll "y" else VNum 300)
  /\ truthy (get (TableParts.virtual_scroll schema_scroll) "x") = true
  /\ truthy (get (TableParts.virtual_scroll schema_scroll) "y") = true
  /\ forall k, k <> "x" -> k <> "y" ->
                own (TableParts.virtual_scroll schema_scroll) k
                = own (spread schema_scroll) k.
Proof.
  unfold TableParts.virtual_scroll. rewrite !get_set.
  cbn [String.eqb Ascii.eqb Bool.eqb]. unfold or_else.
  split; [reflexivity|]. split; [reflexivity|]. split; [|split].
  - destruct (truthy (TableParts.opt_member schema_scroll "x")) eqn:H;
      [exact H | reflexivity].
  - destruct (truthy (TableParts.opt_member schema_scroll "y")) eqn:H;
      [exact H | reflexivity].
  - intros k Hx Hy. rewrite !own_set.
    destruct (String.eqb_spec "y" k); [congruence|].
    destruct (String.eqb_spec "x" k); [congruence|]. reflexivity.
Qed.

Section NextRender.

Context {Component ReactNode AjvOptions : Type}.
Variable props : DripTable.Props Component ReactNode AjvOptions.

Import DripTable.

Lemma onChange_state (pagination : object) (filters : value) (w : World)
  (pag : object) :
  get (tableState w) "pagination" = VObj pag ->
  get (tableState (snd (tableProps_onChange props pagination filters w))) "pagination"
  = VObj (set (set (assign [] pag)
                   "current" (coalesce (get pagination "current") (get pag "current")))
              "pageSize" (coalesce (get pagination "pageSize") (get pag "pageSize"))).
Proof.
  intros Hpag.
  unfold tableProps_onChange, Eff.bind, Eff.gets.
  rewrite Hpag, !coalesce_member_object.
  unfold lift, setTableState, call_optional, Eff.when, emit, Eff.modify, Eff.ret.
  cbn [spread tableState trace].
  destruct (onFilterChange props), (onPageChange props), (onChange props);
    cbn [snd tableState trace]; unfold get; rewrite reducer_own; reflexivity.
Qed.

(** X18: a page change shows in the next render: after the change handler
    ran, the pagination handed to the driver (when the schema does not
    switch pagination off) has the page size the change asked for, or the old
    one when it named none, and as current page the host's [currentPage]
    when that is truthy and otherwise the page the change asked for, or the
    old one; a [currentPage] of 0 therefore never overrides the state. *)
Theorem page_change_shows_in_next_render (pagination : object) (filters : value)
  (w : World) (pag : object) (schema_pagination total currentPage : value)
  (ds : list object) :
  get (tableState w) "pagination" = VObj pag ->
  strict_eq schema_pagination (VBool false) = false ->
  exists o,
    TableParts.tableProps_pagination schema_pagination total currentPage ds
      (tableState (snd (tableProps_onChange props pagination filters w)))
    = Eff.Normal (Some o)
    /\ get o "pageSize" = coalesce (get pagination "pageSize") (get pag "pageSize")
    /\ get o "current"
       = (if truthy currentPage then currentPage
          else coalesce (get pagination "current") (get pag "current"))
    /\ get o "total"
       = (if is_undefined total then VNum (Z.of_nat (length ds)) else total).
Proof.
  intros Hpag Hsp. unfold TableParts.tableProps_pagination. rewrite Hsp.
  rewrite (onChange_state pagination filters w pag Hpag). cbn [member].
  destruct (truthy currentPage) eqn:Hc; eexists; (split; [reflexivity|]);
    cbn [get own String.eqb Ascii.eqb Bool.eqb default];
    fold (get (set (set (assign [] pag) "current"
                        (coalesce (get pagination "current") (get pag "current")))
                   "pageSize"
                   (coalesce (get pagination "pageSize") (get pag "pageSize")))
              "pageSize");
    fold (get (set (set (assign [] pag) "current"
                        (coalesce (get pagination "current") (get pag "current")))
                   "pageSize"
                   (coalesce (get pagination "pageSize") (get pag "pageSize")))
              "current");
    rewrite ?get_set; repeat split; reflexivity.
Qed.

End NextRender.

Lemma page_change_shows_in_next_render_witness :
  exists o,
    TableParts.tableProps_pagination VUndef VUndef (VNum 0) Sample.two_names
      (DripTable.tableState
         (snd (DripTable.tableProps_onChange Sample.listening_props
                 [("current", VNum 2)] (VObj []) Sample.first_page)))
    = Eff.Normal (Some o)
    /\ get o "current" = VNum 2
    /\ get o "pageSize" = VNum 10
    /\ get o "total" = VNum 2.
Proof.
  destruct (page_change_shows_in_next_render Sample.listening_props
              [("current", VNum 2)] (VObj []) Sample.first_page
              [("current", VNum 1); ("pageSize", VNum 10)] VUndef VUndef (VNum 0)
              Sample.two_names eq_refl eq_refl) as (o & H1 & H2 & H3 & H4).
  exists o. split; [exact H1|]. split; [exact H3|]. split; [exact H2 | exact H4].
Defined.

(** X19: a selection change first dispatches the new keys to the state and
    then calls the host's callback, leaves the rest of the state alone, and
    shows in the next render: a table with row selection that is not virtual
    is handed the host's selected keys when the host gives a truthy list and
    the new keys otherwise; a virtual table is handed no row selection at
    all. *)
Theorem selection_round_trip (onSelectionChange : bool) (info : DripTable.TableInfo)
  (keys : list value) (rows : list object) (w : TableParts.SelectionWorld)
  (schema_rowSelection schema_virtual selectedRowKeys : value) :
  let w' := snd (TableParts.rowSelection_onChange onSelectionChange info keys rows w) in
  fst (TableParts.rowSelection_onChange onSelectionChange info keys rows w)
  = Eff.Normal tt
  /\ TableParts.sel_trace w'
     = (TableParts.sel_trace w
        ++ [TableParts.SelSetTableState [("selectedRowKeys", VArr keys)]]
        ++ (if onSelectionChange
            then [TableParts.SelectionChange keys rows info] else []))%list
  /\ (forall k, k <> "selectedRowKeys" ->
                own (TableParts.sel_tableState w') k
                = own (TableParts.sel_tableState w) k)
  /\ TableParts.tableProps_rowSelection schema_rowSelection schema_virtual
       selectedRowKeys (TableParts.sel_tableState w')
     = (if truthy schema_rowSelection && negb (truthy schema_virtual)
        then Some (if truthy selectedRowKeys then selectedRowKeys else VArr keys)
        else None).
Proof.
  intros w'.
  assert (Hst : TableParts.sel_tableState w'
                = Hooks.reducer (TableParts.sel_tableState w)
                    (Hooks.Patch [("selectedRowKeys", VArr keys)])).
  { unfold w', TableParts.rowSelection_onChange, Eff.bind, Eff.modify, Eff.when,
      Eff.ret. destruct onSelectionChange; reflexivity. }
  split; [|split; [|split]].
  - unfold TableParts.rowSelection_onChange, Eff.bind, Eff.modify, Eff.when,
      Eff.ret. destruct onSelectionChange; reflexivity.
  - unfold w', TableParts.rowSelection_onChange, Eff.bind, Eff.modify, Eff.when,
      Eff.ret. destruct onSelectionChange; cbn [snd TableParts.sel_trace];
      rewrite <- ?app_assoc, ?app_nil_r; reflexivity.
  - intros k Hk. rewrite Hst, reducer_own. cbn [Hooks.data_of own].
    destruct (String.eqb_spec "selectedRowKeys" k); [congruence | reflexivity].
  - unfold TableParts.tableProps_rowSelection.
    destruct (truthy schema_rowSelection && negb (truthy schema_virtual));
      [|reflexivity].
    unfold or_else. destruct (truthy selectedRowKeys); [reflexivity|].
    rewrite Hst. unfold get. rewrite reducer_own. reflexivity.
Qed.

(** ** The text renderer and the wrapper *)

Lemma normalize_width_idem (w : value) :
  DripTable.normalize_width (VStr (DripTable.normalize_width w))
  = DripTable.normalize_width w.
Proof.
  unfold DripTable.normalize_width. cbn [to_string].
  set (t := Str.trim (to_string w)).
  destruct (Str.test_digits t) eqn:Hd.
  - rewrite (StrFacts.trim_digits_px t Hd).
    unfold Str.test_digits. rewrite StrFacts.digits_app_px, andb_false_r.
    reflexivity.
  - subst t. rewrite StrFacts.trim_idem, Hd. reflexivity.
Qed.

(** X20: the font size of the text renderer is the column-width
    normalization of the option when the option is truthy and the empty
    string when it is falsy (so the number 0 gives no font size, while a
    width of 0 gives ["0px"]); normalizing a font size again changes
    nothing. *)
Theorem fontSize_like_width (options_fontSize : value) :
  DTCText.fontSize options_fontSize
  = (if truthy options_fontSize
     then DripTable.normalize_width options_fontSize
     else EmptyString)
  /\ DTCText.fontSize (VStr (DTCText.fontSize options_fontSize))
     = DTCText.fontSize options_fontSize.
Proof.
  assert (H : forall v, DTCText.fontSize v
                        = if truthy v then DripTable.normalize_width v else EmptyString).
  { intros v. unfold DTCText.fontSize, DripTable.normalize_width, or_else.
    destruct (truthy v); reflexivity. }
  split; [apply H|].
  rewrite (H (VStr _)), (H options_fontSize).
  destruct (truthy options_fontSize); [|reflexivity].
  rewrite normalize_width_idem.
  cbn [truthy]. destruct (DripTable.normalize_width options_fontSize); reflexivity.
Qed.

Example fontSize_examples :
  DTCText.fontSize (VStr "12") = "12px"
  /\ DTCText.fontSize (VNum 0) = EmptyString
  /\ DripTable.normalize_width (VNum 0) = "0px"
  /\ DTCText.fontSize VUndef = EmptyString
  /\ DTCText.fontSize (VStr "1.5em") = "1.5em".
Proof. repeat split; reflexivity. Qed.


(** X22: the wrapper numbers the schema's columns by position: the column
    at position [i] gets [index] and [sort] equal to [i], unless the column
    itself has an [index] or a [sort], whose own value then stays; all its
    other fields are kept and no column is added or dropped. *)
Theorem wrapper_columns_numbered (columns : list object) (i : nat) (item : object) :
  columns !! i = Some item ->
  length (Wrapper.initial_columns columns) = length columns
  /\ exists column,
       Wrapper.initial_columns columns !! i = Some column
       /\ get column "index"
          = (if has item "index" then get item "index" else VNum (Z.of_nat i))
       /\ get column "sort"
          = (if has item "sort" then get item "sort" else VNum (Z.of_nat i))
       /\ forall k, k <> "index" -> k <> "sort" -> own column k = own item k.
Proof.
  intros Hi. split; [apply length_imap|].
  exists (assign [("index", VNum (Z.of_nat i)); ("sort", VNum (Z.of_nat i))] item).
  split; [|split; [|split]].
  - unfold Wrapper.initial_columns. rewrite list_lookup_imap.
    unfold object in Hi. rewrite Hi. reflexivity.
  - rewrite get_assign. destruct (has item "index"); reflexivity.
  - rewrite get_assign. destruct (has item "sort"); reflexivity.
  - intros k H1 H2. rewrite own_assign. destruct (own item k); [reflexivity|].
    cbn [own]. destruct (String.eqb_spec "index" k); [congruence|].
    destruct (String.eqb_spec "sort" k); [congruence|]. reflexivity.
Qed.

Lemma wrapper_columns_numbered_witness :
  [[("key", VStr "a")]; [("key", VStr "b"); ("sort", VNum 7)]] !! 1%nat
  = Some [("key", VStr "b"); ("sort", VNum 7)]
  /\ exists column,
       Wrapper.initial_columns
         [[("key", VStr "a")]; [("key", VStr "b"); ("sort", VNum 7)]] !! 1%nat
       = Some column
       /\ get column "index" = VNum 1
       /\ get column "sort" = VNum 7.
Proof.
  split; [reflexivity|].
  destruct (wrapper_columns_numbered
              [[("key", VStr "a")]; [("key", VStr "b"); ("sort", VNum 7)]] 1
              [("key", VStr "b"); ("sort", VNum 7)] eq_refl)
    as (_ & column & H1 & H2 & H3 & _).
  exists column. split; [exact H1|]. split; [exact H2 | exact H3].
Defined.

(** ** The earlier revision's built-in renderers *)

(** X23: for a column whose ["ui:type"] names a built-in renderer, the
    earlier revision hands the renderer the cell value as it is, without a
    default, and a schema in which the fields of ["ui:props"] lie over the
    column's own fields of the same name, ["ui:type"] excepted, which stays
    the column's. *)
Theorem legacy_builtin_cell {Component : Type} (builtins : gmap string Component)
  (components : gmap string (gmap string Component)) (ext : value)
  (schema : object) (uiType : string) (c : Component) :
  get schema "ui:type" = VStr uiType ->
  uiType <> EmptyString ->
  builtins !! uiType = Some c ->
  exists render,
    Legacy.renderGenerator builtins components ext schema = Eff.Normal render
    /\ forall value record index,
         exists p,
           render value record index = Legacy.Cell c p
           /\ Legacy.cell_value p = value
           /\ Legacy.cell_data p = record
           /\ get (Legacy.cell_schema p) "ui:type" = VStr uiType
           /\ forall k, k <> "ui:type" ->
                own (Legacy.cell_schema p) k
                = match own (spread (get schema "ui:props")) k with
                  | Some v => Some v
                  | None => own schema k
                  end.
Proof.
  intros Ht Hne Hb. unfold Legacy.renderGenerator. rewrite Ht.
  assert (Hu : (if has schema "ui:type" then VStr uiType else VUndef) = VStr uiType).
  { unfold has. unfold get in Ht. destruct (own schema "ui:type"); [reflexivity|].
    discriminate Ht. }
  rewrite Hu. cbn [truthy to_string].
  destruct uiType as [|a u]; [congruence|]. cbn [Str.is_empty negb].
  rewrite Hb. eexists. split; [reflexivity|].
  intros value record index. eexists. split; [reflexivity|].
  cbn [Legacy.cell_value Legacy.cell_data Legacy.cell_schema].
  split; [reflexivity|]. split; [reflexivity|]. split.
  - rewrite get_set, String.eqb_refl. reflexivity.
  - intros k Hk. rewrite own_set.
    destruct (String.eqb_spec "ui:type" k); [congruence|].
    rewrite !own_assign. cbn [own].
    destruct (own (spread (get schema "ui:props")) k); [reflexivity|].
    destruct (own schema k); reflexivity.
Qed.

Lemma legacy_builtin_cell_witness :
  exists render,
    Legacy.renderGenerator Sample.text_only ∅ VUndef
      [("ui:type", VStr "text"); ("title", VStr "Name");
       ("ui:props", VObj [("title", VStr "Shadow")])]
    = Eff.Normal render
    /\ exists p,
         render VNull [] 0%nat = Legacy.Cell tt p
         /\ Legacy.cell_value p = VNull
         /\ own (Legacy.cell_schema p) "title" = Some (VStr "Shadow").
Proof.
  destruct (legacy_builtin_cell Sample.text_only ∅ VUndef
              [("ui:type", VStr "text"); ("title", VStr "Name");
               ("ui:props", VObj [("title", VStr "Shadow")])] "text" tt
              eq_refl ltac:(discriminate) eq_refl) as (render & Hr & Hcell).
  exists render. split; [exact Hr|].
  destruct (Hcell VNull [] 0%nat) as (p & H1 & H2 & _ & _ & H5).
  exists p. split; [exact H1|]. split; [exact H2|].
  rewrite (H5 "title" ltac:(discriminate)). reflexivity.
Defined.

(** ** Cell editing without a data set *)

(** X24: a table whose [props.dataSource] is not an array (undefined, null,
    a string, a number, an object) never gets to edit a cell: rendering its
    rows throws at [props.dataSource.map], before any row is copied, so
    nothing is allocated, nothing is written and the host's callback is not
    called. *)
Theorem edit_needs_array (schema_rowKey : option string) (dataSource : Edit.hval)
  (dataIndex : value) (supplied : bool) (index : nat) (v : Edit.hval)
  (s : Edit.Store) :
  Edit.is_array (Edit.heap s) dataSource = false ->
  Edit.tableProps_dataSource schema_rowKey dataSource s = (Eff.TypeError, s)
  /\ Edit.edit schema_rowKey dataSource dataIndex supplied index v s
     = (Eff.TypeError, s).
Proof.
  intros H.
  assert (Hthrow : Edit.tableProps_dataSource schema_rowKey dataSource s
                   = (Eff.TypeError, s)).
  { unfold Edit.tableProps_dataSource.
    destruct dataSource as [| |b|n|str|a]; try reflexivity.
    unfold Edit.is_array in H. unfold Eff.bind at 1, Eff.gets at 1.
    destruct (Edit.heap s !! a) as [[fields|elems]|]; try reflexivity.
    discriminate H. }
  split; [exact Hthrow|].
  unfold Edit.edit, Eff.bind at 1. rewrite Hthrow. reflexivity.
Qed.

Lemma edit_needs_array_witness :
  Edit.is_array (Edit.heap Sample.two_names_store) (Edit.HStr "ab") = false
  /\ Edit.edit None (Edit.HStr "ab") (VStr "name") true 0 (Edit.HStr "z")
       Sample.two_names_store
     = (Eff.TypeError, Sample.two_names_store).
Proof.
  split; [reflexivity|].
  exact (proj2 (edit_needs_array None (Edit.HStr "ab") (VStr "name") true 0
                  (Edit.HStr "z") Sample.two_names_store eq_refl)).
Defined.

(** ** A render that cannot throw *)

Section RenderSucceeds.

Context {Component ReactNode AjvOptions : Type}.
Variable builtins : gmap string Component.
Variable validateProps :
  DripTable.Props Component ReactNode AjvOptions -> option AjvOptions -> string.
Variable validateColumn : object -> Component -> option AjvOptions -> string.
Variable props : DripTable.Props Component ReactNode AjvOptions.

Import DripTable.

Lemma columnGenerator_string_component (column : object) :
  match own column "component" with
  | Some (VStr _) | None => True
  | _ => False
  end ->
  exists y, columnGenerator builtins validateColumn props column = Eff.Normal y.
Proof.
  intros H. unfold columnGenerator.
  destruct (renderGenerator builtins validateColumn props column) as [r|] eqn:Hr;
    [eexists; reflexivity|].
  exfalso. revert Hr. unfold renderGenerator, has, get.
  destruct (own column "component") as [[| | | |s| |]|]; try contradiction;
    cbn [default to_string]; [|discriminate].
  unfold Datatypes.id. cbn [to_string].
  destruct (builtins !! s); [discriminate|].
  destruct (Str.split_colons s) as [|libName [|componentName rest]];
    try discriminate.
  destruct (negb (Str.is_empty libName) && negb (Str.is_empty componentName));
    [|discriminate].
  destruct (extra_component props libName componentName); discriminate.
Qed.

Lemma mapM_columnGenerator_succeeds (xs : list object) (w : World) :
  Forall (fun column =>
            match own column "component" with
            | Some (VStr _) | None => True
            | _ => False
            end) xs ->
  exists ys,
    Eff.mapM (fun c => lift (columnGenerator builtins validateColumn props c)) xs w
    = (Eff.Normal ys, w).
Proof.
  induction 1 as [|c r Hc _ IH]; simpl; [eexists; reflexivity|].
  destruct (columnGenerator_string_component c Hc) as [y Hy].
  destruct IH as [ys Hys].
  exists (y :: ys). unfold Eff.bind at 1. rewrite Hy. simpl.
  unfold Eff.ret at 1. unfold Eff.bind at 1. rewrite Hys. reflexivity.
Qed.

Lemma driver_part_defined (driver : value) (group name : string) :
  nullish driver = false ->
  driver_part driver group name
  = Eff.Normal (TableParts.opt_member (TableParts.opt_member driver group) name).
Proof.
  intros H. unfold driver_part, member.
  destruct driver; try discriminate H; reflexivity.
Qed.



(** X26: the two reads that make a validated render throw.  With
    validation passed (or off), a render of a table without a driver throws
    at [props.driver.components], before any column is generated; and with
    a driver, the displayed keys an array and every column's [component] a
    string or missing, a render throws at [tableState.pagination.pageSize]
    when the schema does not switch pagination off and the state has no
    pagination.  The state is untouched either way. *)
Theorem render_throws (keys : list value) (w : World) :
  props_error validateProps props = None ->
  (nullish (driver props) = true ->
   DripTable_body builtins validateProps validateColumn props w = (Eff.TypeError, w))
  /\ (nullish (driver props) = false ->
      get (tableState w) "displayColumnKeys" = VArr keys ->
      Forall (fun column =>
                match own column "component" with
                | Some (VStr _) | None => True
                | _ => False
                end) (columns (schema props)) ->
      strict_eq (pagination (schema props)) (VBool false) = false ->
      nullish (get (tableState w) "pagination") = true ->
      DripTable_body builtins validateProps validateColumn props w
      = (Eff.TypeError, w)).
Proof.
  intros Hval. split.
  - intros Hdriver. unfold DripTable_body. rewrite Hval.
    unfold driver_part, member.
    destruct (driver props); try discriminate Hdriver; reflexivity.
  - intros Hdriver Hkeys Hcols Hs Hn.
    assert (Hvis : Forall (fun column =>
                             match own column "component" with
                             | Some (VStr _) | None => True
                             | _ => False
                             end)
                          (TableParts.visible_columns keys (columns (schema props)))).
    { unfold TableParts.visible_columns. rewrite Forall_forall in Hcols.
      apply Forall_forall. intros c Hc. apply Hcols.
      apply list_elem_of_In in Hc. apply filter_In in Hc as [Hc _].
      apply list_elem_of_In, Hc. }
    destruct (mapM_columnGenerator_succeeds _ w Hvis) as [ys Hys].
    assert (Hrun : tableProps_columns builtins validateColumn props w
                   = (Eff.Normal ys, w)).
    { unfold tableProps_columns, Eff.bind.
      rewrite (filterM_column_visible keys w _ Hkeys). exact Hys. }
    unfold DripTable_body. rewrite Hval.
    rewrite !(driver_part_defined _ _ _ Hdriver).
    unfold Eff.bind, lift, Eff.ret, Eff.gets. rewrite Hrun.
    unfold Parts.tableProps_pagination. rewrite Hs. unfold member.
    destruct (get (tableState w) "pagination"); try discriminate Hn; reflexivity.
Qed.

End RenderSucceeds.


(** The same table rendered before the state has a pagination. *)
Lemma render_throws_witness :
  DripTable.props_error (fun _ _ => EmptyString) Sample2.three_columns_props = None
  /\ DripTable.DripTable_body Sample.text_only (fun _ _ => EmptyString)
       (fun _ _ _ => EmptyString) Sample2.three_columns_props Sample2.no_pagination_yet
     = (Eff.TypeError, Sample2.no_pagination_yet).
Proof.
  split; [reflexivity|].
  assert (Hcols : Forall (fun column =>
                            match own column "component" with
                            | Some (VStr _) | None => True
                            | _ => False
                            end)
                         (DripTable.columns (DripTable.schema Sample2.three_columns_props))).
  { repeat constructor. }
  exact (proj2 (render_throws Sample.text_only (fun _ _ => EmptyString)
                  (fun _ _ _ => EmptyString) Sample2.three_columns_props
                  [VStr "name"] Sample2.no_pagination_yet eq_refl)
               eq_refl eq_refl Hcols eq_refl eq_refl).
Defined.
